(** * Rubber Ducking Adventure: the quest engine and its classifiers

    A shallow embedding of [src/questTypes.ts], [src/mentorResponses.ts] and
    [src/adventureEngine.ts], followed by the properties of the classifier
    and of the quest state machine.

    Conventions of the embedding.
    - A JavaScript string is a [string]: a sequence of 8-bit code units,
      the bytes of its UTF-8 form, in which an ASCII keyword occurs
      exactly where it occurs in the JavaScript string.
      [Js.toLowerCase] lowers the ASCII letters and leaves every other unit
      as it is; on ASCII text this is JavaScript's [toLowerCase].  Outside
      ASCII the built-in does more (U+0130 becomes i followed by U+0307,
      U+212A becomes k), so the statements on which keyword decides a
      classification are made for every lowercasing function.
    - A JavaScript number that holds a count, a timestamp or experience
      points is a [Z]; the value returned by [Math.random()] is a [Q].
      Products with a random value are exact here and rounded to a double
      in JavaScript, and a number is printed with all its digits here and
      in exponent form from 1e21 on in JavaScript; where a statement is
      about such a product or print, the operation is left open.
    - [Date] and [Math.random] are read from lists of future readings that
      are threaded through every method together with the engine's
      [context], in a state monad whose results are completions (normal or
      thrown).
    - The text of the string literals is the bytes of the source files.
    - The engine mutates the current quest through a reference; no other
      reference to that object is ever written through, so the quest is
      a value here and is stored back into the [currentQuest] slot. *)

From Stdlib Require Import Bool Arith ZArith QArith Qround Lia.
From Stdlib Require Import Ascii String List DecimalString.
Import ListNotations.

Local Open Scope string_scope.
Local Open Scope list_scope.
Local Open Scope Z_scope.

(** ** JavaScript strings *)

Module Js.

Definition lower_unit (c : ascii) : ascii :=
  let n := nat_of_ascii c in
  if ((65 <=? n) && (n <=? 90))%nat then ascii_of_nat (n + 32) else c.

(** [String.prototype.toLowerCase] *)
Fixpoint toLowerCase (s : string) : string :=
  match s with
  | EmptyString => EmptyString
  | String c s' => String (lower_unit c) (toLowerCase s')
  end.

(** [String.prototype.includes]: [pat] occurs in [s] as a substring. *)
Fixpoint includes (s pat : string) : bool :=
  prefix pat s ||
  match s with
  | EmptyString => false
  | String _ s' => includes s' pat
  end.

(** The matches of a global regular expression whose pattern is the
    non-empty literal [pat]: scanning resumes after each match, so the
    matches do not overlap.  [skip] counts the units of the last match
    still to be passed. *)
Fixpoint scan_literal (pat : string) (skip : nat) (s : string) : list string :=
  match s with
  | EmptyString => []
  | String _ s' =>
      match skip with
      | S k => scan_literal pat k s'
      | O => if prefix pat s
             then pat :: scan_literal pat (String.length pat - 1) s'
             else scan_literal pat 0 s'
      end
  end.

(** [s.match(/pat/g)]: the array of matches, or [null] when there is none. *)
Definition match_g (s pat : string) : option (list string) :=
  match scan_literal pat 0 s with
  | [] => None
  | ms => Some ms
  end.

(** [a || []] on a possibly-null array. *)
Definition or_empty {A} (a : option (list A)) : list A :=
  match a with Some l => l | None => [] end.

(** [s || fallback] on a possibly-undefined string: the empty string is
    falsy too. *)
Definition or_string (s : option string) (fallback : string) : string :=
  match s with
  | Some EmptyString | None => fallback
  | Some s' => s'
  end.

(** [Array.prototype.join] *)
Fixpoint join (sep : string) (l : list string) : string :=
  match l with
  | [] => ""
  | [x] => x
  | x :: rest => x ++ sep ++ join sep rest
  end.

(** [a.slice(0, n)] and [a.slice(-n)] *)
Definition slice_to {A} (n : nat) (l : list A) : list A := firstn n l.
Definition slice_last {A} (n : nat) (l : list A) : list A :=
  skipn (List.length l - n) l.

(** A whole number in a template literal, for numbers below 1e21 in
    absolute value (from there on JavaScript prints the exponent form). *)
Definition show (n : Z) : string := NilZero.string_of_int (Z.to_int n).

Definition nl : string := String (ascii_of_nat 10) EmptyString.

Definition digit36 (d : Z) : ascii :=
  if d <? 10 then ascii_of_nat (48 + Z.to_nat d) else ascii_of_nat (87 + Z.to_nat d).

(** The digits of [r.toString(36)] after the point, at most [n] of them,
    for [0 <= r < 1].  JavaScript prints the shortest digit string that
    reads back as the same double, with its last digit rounded; this is
    the exact expansion of the rational, cut at [n] digits, so the two
    can differ in the last digits.  No property below reads a quest's
    id. *)
Fixpoint fraction36 (n : nat) (r : Q) : string :=
  match n with
  | O => ""
  | S k =>
      if Qeq_bool r 0 then ""
      else let scaled := (r * 36)%Q in
           let d := Qfloor scaled in
           String (digit36 d) (fraction36 k (scaled - inject_Z d)%Q)
  end.

End Js.

(** ** [questTypes.ts] *)

Inductive BugSeverity := GOBLIN | ORC | TROLL | DRAGON | HYDRA.

Inductive QuestType :=
  | LOGIC_QUEST | PERFORMANCE_QUEST | INTEGRATION_QUEST
  | UI_QUEST | DATA_QUEST | ARCHITECTURE_QUEST.

Inductive QuestPhase := PREPARATION | INVESTIGATION | BATTLE | VICTORY.

(** The union type ["minor" | "moderate" | "major" | "breakthrough"]. *)
Inductive Significance := minor | moderate | major | breakthrough.

Record QuestFinding := {
  finding_timestamp : Z;
  finding : string;
  significance : Significance
}.

Record QuestMilestone := {
  milestone_timestamp : Z;
  milestone_title : string;
  milestone_description : string;
  milestone_phase : QuestPhase
}.

Record Quest := {
  quest_id : string;
  title : string;
  description : string;
  bugSeverity : BugSeverity;
  questType : QuestType;
  phase : QuestPhase;
  startedAt : Z;
  techStack : option (list string);
  findings : list QuestFinding;
  milestones : list QuestMilestone
}.

Record AdventureContext := {
  currentQuest : option Quest;
  completedQuests : list Quest;
  totalExperience : Z;
  heroLevel : Z
}.

Record MentorResponse := {
  message : string;
  questions : list string;
  encouragement : string;
  nextSuggestions : list string
}.

Definition Significance_eqb (a b : Significance) : bool :=
  match a, b with
  | minor, minor | moderate, moderate | major, major
  | breakthrough, breakthrough => true
  | _, _ => false
  end.

Definition QuestPhase_eqb (a b : QuestPhase) : bool :=
  match a, b with
  | PREPARATION, PREPARATION | INVESTIGATION, INVESTIGATION
  | BATTLE, BATTLE | VICTORY, VICTORY => true
  | _, _ => false
  end.

(** ** The classifiers of [adventureEngine.ts] *)

(** The two classifiers call the built-in [toLowerCase] and then look for
    ASCII keywords.  The built-in lowers more than the ASCII letters (it
    maps U+0130 to i followed by U+0307, and the Kelvin sign U+212A to
    k), so the classifiers are first written for any lowercasing
    function; [classifyBugSeverity] and [classifyQuestType] are their
    instances at [Js.toLowerCase], which is the built-in on ASCII
    text. *)
Section Lowercasing.

Variable toLowerCase : string -> string.

Definition classifyBugSeverityWith (description : string) (urgency : option string)
  : BugSeverity :=
  let lowercaseDesc := toLowerCase description in
  let lowercaseUrgency := Js.or_string (option_map toLowerCase urgency) "" in
  if Js.includes lowercaseDesc "crash" || Js.includes lowercaseDesc "down" ||
     Js.includes lowercaseDesc "critical" || Js.includes lowercaseUrgency "critical" ||
     Js.includes lowercaseDesc "production" || Js.includes lowercaseDesc "outage"
  then DRAGON
  else if Js.includes lowercaseDesc "multiple" || Js.includes lowercaseDesc "several" ||
     Js.includes lowercaseDesc "various" || Js.includes lowercaseDesc "complex" ||
     (2 <? List.length (Js.or_empty (Js.match_g lowercaseDesc "and")))%nat
  then HYDRA
  else if Js.includes lowercaseDesc "slow" || Js.includes lowercaseDesc "performance" ||
     Js.includes lowercaseDesc "timeout" || Js.includes lowercaseDesc "integration" ||
     Js.includes lowercaseDesc "api" || Js.includes lowercaseDesc "database"
  then TROLL
  else if Js.includes lowercaseDesc "feature" || Js.includes lowercaseDesc "logic" ||
     Js.includes lowercaseDesc "unexpected" || Js.includes lowercaseUrgency "moderate"
  then ORC
  else GOBLIN.

Definition classifyQuestTypeWith (description : string) (techStack : option (list string))
  : QuestType :=
  let lowercaseDesc := toLowerCase description in
  (* computed by the source and read by none of the tests below *)
  let stackString :=
    Js.or_string (option_map (fun l => toLowerCase (Js.join " " l)) techStack) "" in
  if Js.includes lowercaseDesc "ui" || Js.includes lowercaseDesc "css" ||
     Js.includes lowercaseDesc "layout" || Js.includes lowercaseDesc "styling" ||
     Js.includes lowercaseDesc "responsive" || Js.includes lowercaseDesc "display"
  then UI_QUEST
  else if Js.includes lowercaseDesc "performance" || Js.includes lowercaseDesc "slow" ||
     Js.includes lowercaseDesc "optimization" || Js.includes lowercaseDesc "memory" ||
     Js.includes lowercaseDesc "speed" || Js.includes lowercaseDesc "timeout"
  then PERFORMANCE_QUEST
  else if Js.includes lowercaseDesc "api" || Js.includes lowercaseDesc "integration" ||
     Js.includes lowercaseDesc "service" || Js.includes lowercaseDesc "external" ||
     Js.includes lowercaseDesc "webhook" || Js.includes lowercaseDesc "third-party"
  then INTEGRATION_QUEST
  else if Js.includes lowercaseDesc "database" || Js.includes lowercaseDesc "data" ||
     Js.includes lowercaseDesc "query" || Js.includes lowercaseDesc "storage" ||
     Js.includes lowercaseDesc "migration" || Js.includes lowercaseDesc "sql"
  then DATA_QUEST
  else if Js.includes lowercaseDesc "architecture" || Js.includes lowercaseDesc "design" ||
     Js.includes lowercaseDesc "structure" || Js.includes lowercaseDesc "refactor" ||
     Js.includes lowercaseDesc "scalability" || Js.includes lowercaseDesc "maintainability"
  then ARCHITECTURE_QUEST
  else LOGIC_QUEST.

End Lowercasing.

Definition classifyBugSeverity (description : string) (urgency : option string)
  : BugSeverity :=
  classifyBugSeverityWith Js.toLowerCase description urgency.

Definition classifyQuestType (description : string) (techStack : option (list string))
  : QuestType :=
  classifyQuestTypeWith Js.toLowerCase description techStack.

(** ** The state of a run, and the monad of the engine's methods *)

(** What a method reads from outside the engine: the successive readings
    of the clock ([Date.now()], [new Date()], in milliseconds) and the
    successive values of [Math.random()], each in [0, 1).  A reading
    past the end of a list is 0. *)
Record State := {
  this_context : AdventureContext;
  clock : list Z;
  entropy : list Q
}.

(** How a JavaScript call completes: with a value, or with a thrown error
    (named by its class). *)
Inductive Completion (A : Type) :=
  | Normal (value : A)
  | Throw (error : string).
Arguments Normal {A} value.
Arguments Throw {A} error.

Definition M (A : Type) : Type := State -> Completion A * State.

Definition ret {A} (a : A) : M A := fun s => (Normal a, s).

Definition bind {A B} (m : M A) (k : A -> M B) : M B :=
  fun s =>
    match m s with
    | (Normal a, s') => k a s'
    | (Throw err, s') => (Throw err, s')
    end.

Declare Scope engine_scope.
Delimit Scope engine_scope with engine.
Notation "x <- m ;; k" := (bind m (fun x => k))
  (at level 61, m at next level, right associativity) : engine_scope.
Notation "m ;; k" := (bind m (fun _ => k))
  (at level 61, right associativity) : engine_scope.
Local Open Scope engine_scope.

Definition Date_now : M Z := fun s =>
  match clock s with
  | [] => (Normal 0, s)
  | t :: later =>
      (Normal t, {| this_context := this_context s; clock := later; entropy := entropy s |})
  end.

Definition Math_random : M Q := fun s =>
  match entropy s with
  | [] => (Normal 0%Q, s)
  | r :: later =>
      (Normal r, {| this_context := this_context s; clock := clock s; entropy := later |})
  end.

Definition read_context : M AdventureContext := fun s => (Normal (this_context s), s).

Definition modify_context (f : AdventureContext -> AdventureContext) : M unit := fun s =>
  (Normal tt, {| this_context := f (this_context s); clock := clock s; entropy := entropy s |}).

(** Field assignments. *)
Definition with_currentQuest (q : option Quest) (c : AdventureContext) :=
  {| currentQuest := q; completedQuests := completedQuests c;
     totalExperience := totalExperience c; heroLevel := heroLevel c |}.
Definition with_completedQuests (l : list Quest) (c : AdventureContext) :=
  {| currentQuest := currentQuest c; completedQuests := l;
     totalExperience := totalExperience c; heroLevel := heroLevel c |}.
Definition with_totalExperience (x : Z) (c : AdventureContext) :=
  {| currentQuest := currentQuest c; completedQuests := completedQuests c;
     totalExperience := x; heroLevel := heroLevel c |}.
Definition with_heroLevel (x : Z) (c : AdventureContext) :=
  {| currentQuest := currentQuest c; completedQuests := completedQuests c;
     totalExperience := totalExperience c; heroLevel := x |}.

Definition with_phase (p : QuestPhase) (q : Quest) : Quest :=
  {| quest_id := quest_id q; title := title q; description := description q;
     bugSeverity := bugSeverity q; questType := questType q; phase := p;
     startedAt := startedAt q; techStack := techStack q;
     findings := findings q; milestones := milestones q |}.
Definition push_finding (f : QuestFinding) (q : Quest) : Quest :=
  {| quest_id := quest_id q; title := title q; description := description q;
     bugSeverity := bugSeverity q; questType := questType q; phase := phase q;
     startedAt := startedAt q; techStack := techStack q;
     findings := findings q ++ [f]; milestones := milestones q |}.
Definition push_milestone (m : QuestMilestone) (q : Quest) : Quest :=
  {| quest_id := quest_id q; title := title q; description := description q;
     bugSeverity := bugSeverity q; questType := questType q; phase := phase q;
     startedAt := startedAt q; techStack := techStack q;
     findings := findings q; milestones := milestones q ++ [m] |}.

(** ** [mentorResponses.ts] *)

Module MENTOR_RESPONSES.

Definition greetings : list string :=
  [ "Greetings, brave code warrior! I sense a disturbance in the digital realm...";
    "Welcome back, noble developer! What villainous bug dares to challenge you today?";
    "Ah, another hero seeks wisdom in the art of bug slaying! Tell me of your quest...";
    "The ancient scrolls whisper of your coding prowess. What mystery brings you here?";
    "Hail and well met! I see the determination in your eyes. What beast shall we hunt?" ].

Definition questions (questType : QuestType) (phase : QuestPhase) : list string :=
  match questType, phase with
  | LOGIC_QUEST, PREPARATION =>
      [ "What incantation (code) were you weaving when this logic goblin first appeared?";
        "Can you describe the expected behavior versus what this mischievous spirit is actually doing?";
        "What inputs are you feeding to this spell, and what outputs do you receive?";
        "Have you tried tracing through your logic step by step, like following footprints in the forest?" ]
  | LOGIC_QUEST, INVESTIGATION =>
      [ "What happens if you test each condition in isolation, like examining each ingredient of a potion?";
        "Can you add some debugging runes (console logs) to see where the logic goes astray?";
        "What would happen if you walked through this code with different test cases?";
        "Are there any assumptions in your code that might not hold true in all scenarios?" ]
  | LOGIC_QUEST, BATTLE =>
      [ "How might you restructure this logic to make it more transparent and less prone to trickery?";
        "What edge cases might your current approach be missing?";
        "Could breaking this complex spell into smaller, simpler enchantments help?";
        "How can you verify that your solution handles all the scenarios you've discovered?" ]
  | LOGIC_QUEST, VICTORY =>
      [ "Excellent! How does your solution handle the edge cases you discovered?";
        "What did you learn about this type of logic that you'll carry into future quests?";
        "How might you prevent similar logic goblins from appearing in the future?" ]
  | PERFORMANCE_QUEST, PREPARATION =>
      [ "Where in your kingdom (application) have you noticed the performance dragon stirring?";
        "What actions or spells seem to awaken this sluggish beast?";
        "Have you measured the dragon's size? What metrics show the performance impact?";
        "When did you first notice this performance curse affecting your realm?" ]
  | PERFORMANCE_QUEST, INVESTIGATION =>
      [ "What happens when you profile your code? Where do the performance bottlenecks lurk?";
        "Could there be unnecessary work being done, like casting the same spell repeatedly?";
        "Are you loading more data than needed, like carrying too much treasure in your pack?";
        "What tools can help you see where time is being spent in your application?" ]
  | PERFORMANCE_QUEST, BATTLE =>
      [ "How might you optimize the most expensive operations you've identified?";
        "Could caching or memoization help you avoid repeating costly computations?";
        "Are there more efficient algorithms or data structures you could employ?";
        "What trade-offs are you willing to make between performance and other qualities?" ]
  | PERFORMANCE_QUEST, VICTORY =>
      [ "Magnificent! How much faster is your optimized solution?";
        "What performance monitoring will you put in place to catch future dragons early?";
        "What performance lessons will you apply to prevent similar issues?" ]
  | INTEGRATION_QUEST, PREPARATION =>
      [ "Which external realm (API/service) is refusing to cooperate with your kingdom?";
        "What message exchanges are failing between your systems?";
        "Are you receiving error scrolls (status codes/error messages) from the other realm?";
        "What did the integration work like before this troll appeared?" ]
  | INTEGRATION_QUEST, INVESTIGATION =>
      [ "Can you test the external service independently to verify it's working?";
        "What does the network traffic look like? Are your requests formatted correctly?";
        "Are authentication tokens or API keys still valid and properly configured?";
        "How does your error handling respond to different types of failures?" ]
  | INTEGRATION_QUEST, BATTLE =>
      [ "How might you make your integration more resilient to temporary failures?";
        "What retry strategies or circuit breakers could protect your system?";
        "How can you better handle and communicate integration errors to users?";
        "What monitoring would help you detect integration issues quickly?" ]
  | INTEGRATION_QUEST, VICTORY =>
      [ "Splendid! How does your solution handle various failure scenarios?";
        "What monitoring have you added to watch for future integration troubles?";
        "How will you test this integration going forward to prevent regressions?" ]
  | UI_QUEST, PREPARATION =>
      [ "What visual enchantment is misbehaving in your user interface?";
        "On which viewing crystals (browsers/devices) does this UI goblin appear?";
        "What should the interface look like versus what users are actually seeing?";
        "When do users encounter this visual disturbance in their journey?" ]
  | UI_QUEST, INVESTIGATION =>
      [ "What do the browser's developer tools reveal about the styling or layout?";
        "Are there CSS conflicts or JavaScript errors affecting the presentation?";
        "How does the interface behave at different screen sizes or zoom levels?";
        "What happens when you isolate the problematic component?" ]
  | UI_QUEST, BATTLE =>
      [ "How might you restructure the CSS to be more predictable and maintainable?";
        "What responsive design patterns could better handle different screen sizes?";
        "How can you test this interface across different browsers and devices?";
        "What accessibility considerations should be addressed in your solution?" ]
  | UI_QUEST, VICTORY =>
      [ "Wonderful! How does your interface now perform across different devices?";
        "What CSS or component patterns will you use to prevent similar UI issues?";
        "How will you test UI changes going forward to catch visual regressions?" ]
  | DATA_QUEST, PREPARATION =>
      [ "What data sorcery is going awry in your information stores?";
        "Are you seeing incorrect, missing, or corrupted data in your repositories?";
        "What operations on your data seem to awaken this particular data demon?";
        "When did you first notice the data behaving strangely?" ]
  | DATA_QUEST, INVESTIGATION =>
      [ "Can you trace the data's journey from source to destination?";
        "Are there data transformations or validations that might be affecting the information?";
        "What do your database queries return when tested directly?";
        "How does the data look at each step of processing?" ]
  | DATA_QUEST, BATTLE =>
      [ "How might you add validation to catch data issues earlier in the process?";
        "What data integrity constraints could prevent corruption?";
        "How can you better handle edge cases in your data processing?";
        "What backup and recovery procedures should be in place?" ]
  | DATA_QUEST, VICTORY =>
      [ "Excellent! How have you ensured data integrity going forward?";
        "What monitoring will alert you to similar data issues in the future?";
        "What validation patterns will you apply to prevent data corruption?" ]
  | ARCHITECTURE_QUEST, PREPARATION =>
      [ "What architectural challenge threatens the stability of your digital kingdom?";
        "Which components or services are struggling to work together harmoniously?";
        "What scalability or maintainability issues are you encountering?";
        "How is this architectural dragon affecting your users or development team?" ]
  | ARCHITECTURE_QUEST, INVESTIGATION =>
      [ "What are the key responsibilities and boundaries of each component?";
        "Where are the coupling points between different parts of your system?";
        "What quality attributes (performance, scalability, maintainability) are most important?";
        "How do current design patterns support or hinder your goals?" ]
  | ARCHITECTURE_QUEST, BATTLE =>
      [ "How might you restructure components to better separate concerns?";
        "What patterns or principles could guide your architectural decisions?";
        "How can you ensure your architecture supports future growth and changes?";
        "What refactoring steps would move you toward your desired architecture?" ]
  | ARCHITECTURE_QUEST, VICTORY =>
      [ "Magnificent! How does your new architecture better serve your requirements?";
        "What architectural principles will guide your future design decisions?";
        "How will you maintain architectural quality as your system evolves?" ]
  end.

Definition encouragements (severity : BugSeverity) : list string :=
  match severity with
  | GOBLIN =>
      [ "Fear not, this goblin may be small but defeating it will sharpen your skills!";
        "Even mighty heroes started by conquering simple goblins. You've got this!";
        "This minor creature won't stand long against your growing expertise!";
        "A quick victory over this goblin will boost your confidence for bigger battles!" ]
  | ORC =>
      [ "This orc requires strategy, but I sense the wisdom within you to overcome it!";
        "Moderate foes like this orc test your problem-solving prowess. Trust your instincts!";
        "You've grown strong enough to face this orc. Take it step by step!";
        "This orc may be tougher than a goblin, but your skills have grown to match the challenge!" ]
  | TROLL =>
      [ "Trolls are formidable, but methodical heroes like yourself have conquered them before!";
        "This troll guards important knowledge. Defeating it will make you a stronger developer!";
        "Complex beasts like this troll require patience and persistence. You have both!";
        "The troll seems intimidating, but remember: every expert was once a beginner who didn't give up!" ]
  | DRAGON =>
      [ "Dragons are the ultimate test of a hero's skills. You wouldn't face one if you weren't ready!";
        "This dragon threatens your entire kingdom, but heroes like you are exactly what's needed!";
        "The greatest legends are born from dragon-slaying quests. This is your moment!";
        "Dragons have fallen before determined heroes. Your persistence will be the key to victory!" ]
  | HYDRA =>
      [ "The dreaded Hydra! Multiple heads require multiple strategies. Your systematic approach will prevail!";
        "Hydras are rare beasts that only the most experienced adventurers encounter. You're among the elite!";
        "Each head of this Hydra teaches a different lesson. Embrace the complex challenge!";
        "Multi-faceted problems create multi-talented heroes. This Hydra will make you legendary!" ]
  end.

Definition milestoneAcknowledgments : list string :=
  [ "Excellent discovery! You've uncovered an important clue in your quest!";
    "Your investigation skills grow stronger! This finding brings you closer to victory!";
    "Brilliant insight! The path forward becomes clearer with each discovery!";
    "Your persistence pays off! This breakthrough illuminates the way ahead!";
    "Masterful detection! You're developing the instincts of a true bug hunter!" ].

Definition victoryMessages : list string :=
  [ "🏆 Victory! Another bug vanquished by your heroic efforts! Your debugging prowess grows stronger!";
    "⚔️ Triumphant! The digital realm is safer thanks to your noble quest! Well fought, brave warrior!";
    "🎉 Success! You've proven once again that no bug can withstand a determined hero's resolve!";
    "✨ Glorious victory! Your systematic approach and persistence have saved the day once more!";
    "🛡️ Champion! Your debugging skills shine brighter with each conquered challenge!" ].

End MENTOR_RESPONSES.

(** [responses[Math.floor(Math.random() * responses.length)]]; the index is
    within the array for a draw in [0, 1) on a non-empty array, and a read
    outside it (JavaScript's [undefined]) shows as that word.  The
    product is exact here and rounded to a double in JavaScript, which
    can pick the next element for a draw just below a boundary; the
    index stays within the array in both. *)
Definition getRandomResponse (responses : list string) : M string :=
  r <- Math_random;;
  let index := Qfloor (r * inject_Z (Z.of_nat (List.length responses))) in
  ret (nth (Z.to_nat index) responses "undefined").

Definition getQuestQuestions (questType : QuestType) (phase : QuestPhase) : list string :=
  MENTOR_RESPONSES.questions questType phase.

Definition getEncouragement (severity : BugSeverity) : M string :=
  getRandomResponse (MENTOR_RESPONSES.encouragements severity).

Definition getGreeting : M string :=
  getRandomResponse MENTOR_RESPONSES.greetings.

Definition getMilestoneAcknowledgment : M string :=
  getRandomResponse MENTOR_RESPONSES.milestoneAcknowledgments.

Definition getVictoryMessage : M string :=
  getRandomResponse MENTOR_RESPONSES.victoryMessages.

(** ** [adventureEngine.ts]: the private helpers *)

(** The context built by the constructor. *)
Definition constructor : AdventureContext :=
  {| currentQuest := None; completedQuests := []; totalExperience := 0; heroLevel := 1 |}.

Definition generateQuestId : M string :=
  now <- Date_now;;
  r <- Math_random;;
  ret ("quest_" ++ Js.show now ++ "_" ++ Js.fraction36 9 r)%string.

Definition generateQuestTitle (severity : BugSeverity) (type : QuestType) : string :=
  let severityTitles :=
    match severity with
    | GOBLIN => "The Goblin Incident"
    | ORC => "The Orc Uprising"
    | TROLL => "The Troll's Challenge"
    | DRAGON => "The Dragon's Curse"
    | HYDRA => "The Hydra's Many Heads"
    end in
  let typeTitles :=
    match type with
    | LOGIC_QUEST => "Logic Labyrinth"
    | PERFORMANCE_QUEST => "Performance Peril"
    | INTEGRATION_QUEST => "Integration Invasion"
    | UI_QUEST => "Interface Intrigue"
    | DATA_QUEST => "Data Dungeon"
    | ARCHITECTURE_QUEST => "Architecture Awakening"
    end in
  (severityTitles ++ " in the " ++ typeTitles)%string.

Definition getBugDescription (severity : BugSeverity) : string :=
  match severity with
  | GOBLIN => "A mischievous goblin ðŸ§Œ"
  | ORC => "A cunning orc warrior âš”ï¸"
  | TROLL => "A formidable troll ðŸ‘¹"
  | DRAGON => "A mighty dragon ðŸ‰"
  | HYDRA => "The dreaded multi-headed hydra ðŸ"
  end.

Definition getQuestTypeDescription (type : QuestType) : string :=
  match type with
  | LOGIC_QUEST => "Logic & Algorithms"
  | PERFORMANCE_QUEST => "Performance & Optimization"
  | INTEGRATION_QUEST => "API & Integration"
  | UI_QUEST => "User Interface"
  | DATA_QUEST => "Data & Storage"
  | ARCHITECTURE_QUEST => "System Architecture"
  end.

Definition getPhaseDescription (phase : QuestPhase) : string :=
  match phase with
  | PREPARATION => "ðŸ›¡ï¸ Preparation - Gathering intelligence and understanding the challenge"
  | INVESTIGATION => "ðŸ” Investigation - Exploring theories and testing hypotheses"
  | BATTLE => "âš”ï¸ Battle - Implementing and refining solutions"
  | VICTORY => "ðŸ† Victory - Challenge conquered!"
  end.

Definition addMilestone (quest : Quest) (title description : string) : M Quest :=
  now <- Date_now;;
  let milestone :=
    {| milestone_timestamp := now;
       milestone_title := title;
       milestone_description := description;
       milestone_phase := phase quest |} in
  ret (push_milestone milestone quest).

Definition updateQuestPhase (quest : Quest) : M Quest :=
  let findingCount := List.length (findings quest) in
  let hasBreakthrough :=
    existsb (fun f => Significance_eqb (significance f) breakthrough) (findings quest) in
  if QuestPhase_eqb (phase quest) PREPARATION && (3 <=? findingCount)%nat then
    addMilestone (with_phase INVESTIGATION quest) "Investigation Phase"
      "Gathered enough information to begin deeper investigation"
  else if QuestPhase_eqb (phase quest) INVESTIGATION &&
          (hasBreakthrough || (6 <=? findingCount)%nat) then
    addMilestone (with_phase BATTLE quest) "Battle Phase"
      "Ready to implement and test solutions"
  else ret quest.

Definition getNextSuggestions (quest : Quest) : list string :=
  match phase quest with
  | PREPARATION =>
      [ "Gather more details about the problem";
        "Create a minimal reproduction case";
        "Check what changed recently" ]
  | INVESTIGATION =>
      [ "Test your hypotheses systematically";
        "Add debugging information to see what's happening";
        "Try isolating the problem area" ]
  | BATTLE =>
      [ "Implement a focused solution";
        "Test your fix thoroughly";
        "Consider edge cases and potential side effects" ]
  | VICTORY =>
      [ "Document your solution";
        "Add tests to prevent regression";
        "Share your learnings with the team" ]
  end.

Definition baseXP (severity : BugSeverity) : Z :=
  match severity with
  | GOBLIN => 10
  | ORC => 25
  | TROLL => 50
  | DRAGON => 100
  | HYDRA => 150
  end.

Definition calculateExperience (quest : Quest) : Z :=
  let findingsBonus := Z.of_nat (List.length (findings quest)) * 2 in
  let milestonesBonus := Z.of_nat (List.length (milestones quest)) * 5 in
  baseXP (bugSeverity quest) + findingsBonus + milestonesBonus.

(** ** [adventureEngine.ts]: the public methods *)

Definition startQuest (description : string) (techStack : option (list string))
    (urgency : option string) : M (Quest * MentorResponse) :=
  let bugSeverity := classifyBugSeverity description urgency in
  let questType := classifyQuestType description techStack in
  id <- generateQuestId;;
  started <- Date_now;;
  let quest :=
    {| quest_id := id;
       title := generateQuestTitle bugSeverity questType;
       description := description;
       bugSeverity := bugSeverity;
       questType := questType;
       phase := PREPARATION;
       startedAt := started;
       techStack := techStack;
       findings := [];
       milestones := [] |} in
  modify_context (with_currentQuest (Some quest));;
  let questions := getQuestQuestions questType PREPARATION in
  encouragement <- getEncouragement bugSeverity;;
  greeting <- getGreeting;;
  let response :=
    {| message :=
         greeting ++ Js.nl ++ Js.nl ++ "ðŸ“œ **" ++ title quest ++ "**" ++ Js.nl ++ Js.nl ++
         description ++ Js.nl ++ Js.nl ++
         getBugDescription bugSeverity ++ " awaits your investigation!";
       questions := Js.slice_to 3 questions;
       encouragement := encouragement;
       nextSuggestions :=
         [ "Gather more information about when and how the issue occurs";
           "Identify what changed recently that might have caused this";
           "Create a minimal reproduction case if possible" ] |} in
  ret (quest, response).

Definition continueQuest (finding : string) (significance : option Significance)
  : M MentorResponse :=
  (* the parameter's default value *)
  let significance := match significance with Some s => s | None => moderate end in
  ctx <- read_context;;
  match currentQuest ctx with
  | None =>
      ret {| message :=
               "No active quest found! Use 'start_quest' to begin your debugging adventure.";
             questions := [];
             encouragement := "Ready to embark on a new debugging quest?";
             nextSuggestions := ["Start a new quest to begin your debugging journey"] |}
  | Some quest =>
      now <- Date_now;;
      let questFinding :=
        {| finding_timestamp := now; finding := finding; significance := significance |} in
      let quest := push_finding questFinding quest in
      quest <- updateQuestPhase quest;;
      modify_context (with_currentQuest (Some quest));;
      let questions := getQuestQuestions (questType quest) (phase quest) in
      acknowledgment <-
        (if Significance_eqb significance breakthrough
         then getMilestoneAcknowledgment
         else ret "Interesting discovery! This information helps build our understanding.");;
      let nextSuggestions := getNextSuggestions quest in
      encouragement <- getEncouragement (bugSeverity quest);;
      ret {| message :=
               acknowledgment ++ Js.nl ++ Js.nl ++ "**Your Finding:** " ++ finding ++
               Js.nl ++ Js.nl ++ "**Current Phase:** " ++ getPhaseDescription (phase quest);
             questions := Js.slice_to 3 questions;
             encouragement := encouragement;
             nextSuggestions := nextSuggestions |}
  end.

Definition getQuestStatus : M string :=
  ctx <- read_context;;
  match currentQuest ctx with
  | None => ret "ðŸ° No active quest. Ready to face a new debugging challenge?"
  | Some quest =>
      now <- Date_now;;
      let timeElapsed := (now - startedAt quest) / (1000 * 60) in
      ret ("ðŸ—¡ï¸ **" ++ title quest ++ "**" ++ Js.nl ++
           "    " ++ Js.nl ++
           "**Beast Type:** " ++ getBugDescription (bugSeverity quest) ++ Js.nl ++
           "**Quest Type:** " ++ getQuestTypeDescription (questType quest) ++ "  " ++ Js.nl ++
           "**Phase:** " ++ getPhaseDescription (phase quest) ++ Js.nl ++
           "**Time Elapsed:** " ++ Js.show timeElapsed ++ " minutes" ++ Js.nl ++
           "**Findings Collected:** " ++
             Js.show (Z.of_nat (List.length (findings quest))) ++ Js.nl ++
           "**Milestones Achieved:** " ++
             Js.show (Z.of_nat (List.length (milestones quest))) ++ Js.nl ++
           Js.nl ++
           "**Recent Findings:**" ++ Js.nl ++
           Js.join Js.nl
             (map (fun f => "â€¢ " ++ finding f) (Js.slice_last 3 (findings quest))) ++
           Js.nl ++
           Js.nl ++
           "**Hero Level:** " ++ Js.show (heroLevel ctx) ++ " " ++ Js.nl ++
           "**Total Experience:** " ++ Js.show (totalExperience ctx) ++ " XP" ++ Js.nl ++
           "**Completed Quests:** " ++
             Js.show (Z.of_nat (List.length (completedQuests ctx))))%string
  end.

Definition seekWisdom (helpType : string) : M MentorResponse :=
  ctx <- read_context;;
  match currentQuest ctx with
  | None =>
      ret {| message :=
               "Start a quest first, brave hero! I can only provide guidance when you have an active debugging challenge.";
             questions := [];
             encouragement := "Every great adventure begins with a single step!";
             nextSuggestions := ["Begin a new debugging quest"] |}
  | Some quest =>
      let helpTypeLower := Js.toLowerCase helpType in
      let '(message, questions) :=
        if Js.includes helpTypeLower "approach" || Js.includes helpTypeLower "strategy" then
          (("ðŸ§™â€â™‚ï¸ **Strategic Wisdom**" ++ Js.nl ++ Js.nl ++
           "When facing complex bugs, remember the hero's methodology:")%string,
           [ "Have you clearly defined what 'success' looks like for solving this issue?";
             "What's the simplest way you could reproduce this problem?";
             "If you had to explain this bug to someone else, what would you say?";
             "What assumptions are you making that might not be true?" ])
        else if Js.includes helpTypeLower "test" || Js.includes helpTypeLower "verify" then
          (("ðŸ” **Testing Wisdom**" ++ Js.nl ++ Js.nl ++
           "Every good hero tests their theories before charging into battle:")%string,
           [ "What's the smallest change you could make to test your hypothesis?";
             "How can you isolate this issue from other potential problems?";
             "What would happen if you removed or simplified the problematic code?";
             "How can you verify that your solution actually fixes the root cause?" ])
        else if Js.includes helpTypeLower "investigate" || Js.includes helpTypeLower "explore" then
          (("ðŸ”Ž **Investigation Wisdom**" ++ Js.nl ++ Js.nl ++
           "True heroes gather intelligence before striking:")%string,
           [ "What clues does your development environment provide (logs, debugger, etc.)?";
             "When did this problem first appear? What changed around that time?";
             "Are there similar patterns elsewhere in your codebase?";
             "What would someone unfamiliar with this code need to understand the issue?" ])
        else
          (("ðŸŽ¯ **General Wisdom**" ++ Js.nl ++ Js.nl ++
           "Remember the fundamental principles of debugging:")%string,
           Js.slice_to 3 (getQuestQuestions (questType quest) (phase quest))) in
      encouragement <- getEncouragement (bugSeverity quest);;
      ret {| message := message;
             questions := questions;
             encouragement := encouragement;
             nextSuggestions := getNextSuggestions quest |}
  end.

Definition completeQuest (solutionSummary : option string) : M MentorResponse :=
  ctx <- read_context;;
  match currentQuest ctx with
  | None =>
      ret {| message := "No active quest to complete! Start a new adventure when you're ready.";
             questions := [];
             encouragement := "Every master was once a beginner!";
             nextSuggestions := ["Begin a new debugging quest"] |}
  | Some quest =>
      let quest := with_phase VICTORY quest in
      now <- Date_now;;
      let victoryMilestone :=
        {| milestone_timestamp := now;
           milestone_title := "Quest Completed!";
           milestone_description :=
             Js.or_string solutionSummary "Hero successfully vanquished the bug!";
           milestone_phase := VICTORY |} in
      let quest := push_milestone victoryMilestone quest in
      let experienceGained := calculateExperience quest in
      modify_context (fun c => with_totalExperience (totalExperience c + experienceGained) c);;
      ctx <- read_context;;
      let newLevel := totalExperience ctx / 100 + 1 in
      let leveledUp := newLevel >? heroLevel ctx in
      modify_context (with_heroLevel newLevel);;
      modify_context (fun c => with_completedQuests (completedQuests c ++ [quest]) c);;
      modify_context (with_currentQuest None);;
      victoryMessage <- getVictoryMessage;;
      ctx <- read_context;;
      let levelUpMessage :=
        if leveledUp
        then (Js.nl ++ Js.nl ++ "ðŸŒŸ **LEVEL UP!** You are now a Level " ++
             Js.show (heroLevel ctx) ++ " Debug Hero!")%string
        else "" in
      finished <- Date_now;;
      ret {| message :=
               victoryMessage ++ levelUpMessage ++ Js.nl ++ Js.nl ++
               "**Quest Summary:** " ++ title quest ++ Js.nl ++
               "**Solution:** " ++ Js.or_string solutionSummary "Bug successfully eliminated!" ++
               Js.nl ++
               "**Experience Gained:** " ++ Js.show experienceGained ++ " XP" ++ Js.nl ++
               "**Time Taken:** " ++
               Js.show ((finished - startedAt quest) / (1000 * 60)) ++ " minutes";
             questions :=
               [ "What did you learn from this quest that you'll apply to future challenges?";
                 "How might you prevent similar bugs from appearing in the future?";
                 "What debugging techniques proved most effective for this type of issue?" ];
             encouragement := "Your growing expertise makes the digital realm safer for all!";
             nextSuggestions :=
               [ "Document your solution for future reference";
                 "Share your knowledge with fellow developers";
                 "Stay vigilant for new debugging challenges" ] |}
  end.

(** ** The five operations offered to a caller *)

(** One call of a public method, as the five registered tools make them. *)
Inductive Operation :=
  | start_quest (description : string) (techStack : option (list string))
      (urgency : option string)
  | continue_quest (finding : string) (significance : option Significance)
  | get_quest_status
  | seek_wisdom (helpType : string)
  | complete_quest (solutionSummary : option string).

Definition perform (op : Operation) : M unit :=
  match op with
  | start_quest d t u => _ <- startQuest d t u;; ret tt
  | continue_quest f s => _ <- continueQuest f s;; ret tt
  | get_quest_status => _ <- getQuestStatus;; ret tt
  | seek_wisdom h => _ <- seekWisdom h;; ret tt
  | complete_quest s => _ <- completeQuest s;; ret tt
  end.

Fixpoint perform_all (ops : list Operation) : M unit :=
  match ops with
  | [] => ret tt
  | op :: rest => perform op;; perform_all rest
  end.

(** The state a run ends in, and the context of that state. *)
Definition state_after {A} (m : M A) (s : State) : State := snd (m s).
Definition context_after {A} (m : M A) (s : State) : AdventureContext :=
  this_context (state_after m s).
Definition result_of {A} (m : M A) (s : State) : Completion A := fst (m s).

(** ** Notions the properties are stated with *)

(** The order of the phases along PREPARATION, INVESTIGATION, BATTLE,
    VICTORY. *)
Definition phase_rank (p : QuestPhase) : nat :=
  match p with
  | PREPARATION => 0
  | INVESTIGATION => 1
  | BATTLE => 2
  | VICTORY => 3
  end.

(** The phase of the quest that was current when the history held
    [archived] quests: read in the current-quest slot while the quest is
    open, and at position [archived] of the history once it is closed. *)
Definition tracked_phase (archived : nat) (ctx : AdventureContext) : option QuestPhase :=
  match currentQuest ctx with
  | Some q => Some (phase q)
  | None => option_map phase (nth_error (completedQuests ctx) archived)
  end.

(** The operations of a quest's lifetime: all but the one that opens a
    quest. *)
Definition in_lifetime (op : Operation) : bool :=
  match op with
  | start_quest _ _ _ => false
  | _ => true
  end.

Definition is_close (op : Operation) : bool :=
  match op with
  | complete_quest _ => true
  | _ => false
  end.



(** The positions of [s] at which [pat] starts. *)
Fixpoint occurrences (pat s : string) : nat :=
  ((if prefix pat s then 1 else 0) +
   match s with
   | EmptyString => 0
   | String _ s' => occurrences pat s'
   end)%nat.



(** The words of a text: its maximal runs of units other than the space. *)
Fixpoint words_from (current : string) (s : string) : list string :=
  match s with
  | EmptyString => match current with EmptyString => [] | _ => [current] end
  | String c s' =>
      if Ascii.eqb c " "%char
      then match current with
           | EmptyString => words_from EmptyString s'
           | _ => current :: words_from EmptyString s'
           end
      else words_from (current ++ String c EmptyString) s'
  end.

(** How many words of [s] are the word [w]. *)
Definition word_count (w s : string) : nat :=
  List.length (filter (String.eqb w) (words_from EmptyString s)).

(** [m] completes normally and leaves the engine's context as it was (it
    may read the clock and draw random numbers). *)
Definition keeps_context {A} (m : M A) : Prop :=
  forall s, exists a s', m s = (Normal a, s') /\ this_context s' = this_context s.

(** The phase [updateQuestPhase] leaves a quest in. *)
Definition phase_after_update (q : Quest) : QuestPhase :=
  match phase q with
  | PREPARATION =>
      if (3 <=? List.length (findings q))%nat then INVESTIGATION else PREPARATION
  | INVESTIGATION =>
      if existsb (fun f => Significance_eqb (significance f) breakthrough) (findings q)
         || (6 <=? List.length (findings q))%nat
      then BATTLE else INVESTIGATION
  | BATTLE => BATTLE
  | VICTORY => VICTORY
  end.

(** What one call of [updateQuestPhase] does to a quest: the phase moves
    by the rule, a move appends one milestone stamped with the new phase,
    and nothing else changes. *)
Definition updated (q q' : Quest) : Prop :=
  phase q' = phase_after_update q /\
  findings q' = findings q /\
  bugSeverity q' = bugSeverity q /\
  questType q' = questType q /\
  ((phase q' = phase q /\ milestones q' = milestones q) \/
   (phase q' <> phase q /\
    exists m, milestones q' = milestones q ++ [m] /\ milestone_phase m = phase q')).

(** A call fails with the error named [error] when it completes by
    throwing it. *)
Definition fails_with {A} (error : string) (m : M A) (s : State) : Prop :=
  result_of m s = Throw error.

(** The significance a call of [continueQuest] records. *)
Definition recorded (sig : option Significance) : Significance :=
  match sig with Some x => x | None => moderate end.

Definition has_breakthrough (q : Quest) : Prop :=
  exists x, In x (findings q) /\ significance x = breakthrough.

(** Sample states: a freshly built engine, and an engine whose current
    quest is in a given phase. *)
Definition fresh_engine : State :=
  {| this_context := constructor; clock := []; entropy := [] |}.

Definition sample_quest (p : QuestPhase) : Quest :=
  {| quest_id := "quest_0_";
     title := generateQuestTitle GOBLIN LOGIC_QUEST;
     description := "typo in a label";
     bugSeverity := GOBLIN;
     questType := LOGIC_QUEST;
     phase := p;
     startedAt := 0;
     techStack := None;
     findings := [];
     milestones := [] |}.

Definition engine_in_phase (p : QuestPhase) : State :=
  {| this_context := with_currentQuest (Some (sample_quest p)) constructor;
     clock := [];
     entropy := [] |}.

Create HintDb engine.

(** ** [resources/resourceGenerator.ts] and [resources/resourceRegistry.ts] *)

(** [generateQuestHistory] prints numbers in template literals and takes
    [Math.floor(Math.random() * n)], a product rounded to a double.
    Both operations are left open: [Number_toString n] is the text of
    the whole number [n] in a template literal, and [floor_times r n] is
    [Math.floor(r * n)]. *)
Section QuestLog.

Variable Number_toString : Z -> string.
Variable floor_times : Q -> Z -> Z.

(** The double that the literal [0.3] denotes. *)
Definition double_0_3 : Q := 5404319552844595 # 18014398509481984.

(** The three lines of one quest of the log: the body of the loop of
    [generateQuestHistory] for index [i], with its three draws. *)
Definition questLogEntry (i : Z) (r1 r2 r3 : Q) : string :=
  let questTypes :=
    ["Goblin Infestation"; "Orc Invasion"; "Troll Bridge"; "Dragon Attack";
     "Hydra Outbreak"] in
  let questType :=
    nth (Z.to_nat (floor_times r1 (Z.of_nat (List.length questTypes))))
      questTypes "undefined" in
  let status := if negb (Qle_bool r2 double_0_3) then "✅ Victory" else "⏳ In Progress" in
  ("### Quest " ++ Number_toString (i + 1) ++ ": " ++ questType ++ Js.nl ++
   "**Status**: " ++ status ++ Js.nl ++
   "**Difficulty**: " ++ Number_toString (floor_times r3 5 + 1) ++ "/5 ⭐" ++ Js.nl ++
   Js.nl)%string.

(** The loop [for (let i = 0; i < questCount; i++)], with [remaining] the
    number of rounds still to run. *)
Fixpoint questLogLoop (remaining : nat) (i : Z) (history : string) : M string :=
  match remaining with
  | O => ret history
  | S k =>
      r1 <- Math_random;;
      r2 <- Math_random;;
      r3 <- Math_random;;
      questLogLoop k (i + 1) (history ++ questLogEntry i r1 r2 r3)%string
  end.

(** The text [generateQuestHistory] starts from: its two assignments to
    [history] before the loop. *)
Definition questLogHeader (heroLevel : Z) : string :=
  let history :=
    ("# 📜 Quest Log Archive - Hero Level " ++ Number_toString heroLevel ++ Js.nl ++
     Js.nl)%string in
  (history ++ "## 🎯 Recent Adventures" ++ Js.nl ++ Js.nl)%string.

(** [generateQuestHistory], for a whole number [heroLevel]. *)
Definition generateQuestHistory (heroLevel : Z) : M string :=
  let questCount := Z.min (heroLevel * 2) 10 in
  questLogLoop (Z.to_nat questCount) 0 (questLogHeader heroLevel).

End QuestLog.

(** The completion callback of the bestiary's [bugType] parameter. *)
Definition complete_bugType (value : string) : list string :=
  let bugTypes := ["goblin"; "orc"; "troll"; "dragon"; "hydra"] in
  filter (fun type => prefix (Js.toLowerCase value) type) bugTypes.

(** ** Further notions *)

(** The experience of a list of archived quests. *)
Definition sum_experience (l : list Quest) : Z :=
  fold_right (fun q acc => calculateExperience q + acc) 0 l.

(** The level and the experience agree with the history. *)
Definition hero_consistent (c : AdventureContext) : Prop :=
  totalExperience c = sum_experience (completedQuests c) /\
  heroLevel c = totalExperience c / 100 + 1.

(** The shape of an open quest: one milestone per phase passed, in
    order, and a number of findings that fits the phase. *)
Definition open_quest_shape (q : Quest) : Prop :=
  map milestone_phase (milestones q) =
    firstn (phase_rank (phase q)) [INVESTIGATION; BATTLE] /\
  match phase q with
  | PREPARATION => (List.length (findings q) <= 2)%nat
  | INVESTIGATION =>
      (3 <= List.length (findings q) <= 5)%nat /\
      ((4 <= List.length (findings q))%nat -> ~ has_breakthrough q)
  | BATTLE => (4 <= List.length (findings q))%nat
  | VICTORY => False
  end.

(** The shape of an archived quest: phase VICTORY, and the completion
    milestone after at most the two phase milestones. *)
Definition archived_shape (q : Quest) : Prop :=
  phase q = VICTORY /\
  exists passed m,
    milestones q = passed ++ [m] /\
    milestone_title m = "Quest Completed!" /\
    milestone_phase m = VICTORY /\
    (List.length passed <= 2)%nat /\
    map milestone_phase passed = firstn (List.length passed) [INVESTIGATION; BATTLE].

(** What holds of the context in every state an engine can reach. *)
Definition engine_invariant (c : AdventureContext) : Prop :=
  hero_consistent c /\
  (forall q, currentQuest c = Some q -> open_quest_shape q) /\
  Forall archived_shape (completedQuests c).

(** A freshly built engine with a given clock and random source. *)
Definition new_engine (clock : list Z) (entropy : list Q) : State :=
  {| this_context := constructor; clock := clock; entropy := entropy |}.




(** The fixed message and questions of the three topics of [seekWisdom]. *)
Definition strategicWisdom : string * list string :=
  (("ðŸ§™â€â™‚ï¸ **Strategic Wisdom**" ++ Js.nl ++ Js.nl ++
   "When facing complex bugs, remember the hero's methodology:")%string,
   [ "Have you clearly defined what 'success' looks like for solving this issue?";
   "What's the simplest way you could reproduce this problem?";
   "If you had to explain this bug to someone else, what would you say?";
   "What assumptions are you making that might not be true?" ]).

Definition testingWisdom : string * list string :=
  (("ðŸ” **Testing Wisdom**" ++ Js.nl ++ Js.nl ++
   "Every good hero tests their theories before charging into battle:")%string,
   [ "What's the smallest change you could make to test your hypothesis?";
   "How can you isolate this issue from other potential problems?";
   "What would happen if you removed or simplified the problematic code?";
   "How can you verify that your solution actually fixes the root cause?" ]).

Definition investigationWisdom : string * list string :=
  (("ðŸ”Ž **Investigation Wisdom**" ++ Js.nl ++ Js.nl ++
   "True heroes gather intelligence before striking:")%string,
   [ "What clues does your development environment provide (logs, debugger, etc.)?";
   "When did this problem first appear? What changed around that time?";
   "Are there similar patterns elsewhere in your codebase?";
   "What would someone unfamiliar with this code need to understand the issue?" ]).

(** The operations that only ask: status and guidance. *)
Definition is_query (op : Operation) : bool :=
  match op with
  | get_quest_status | seek_wisdom _ => true
  | _ => false
  end.

(** The calls of [continue_quest] for a list of findings. *)
Definition record_all (calls : list (string * option Significance)) : list Operation :=
  map (fun c => continue_quest (fst c) (snd c)) calls.

(** * Properties *)

(** ** Strings *)

Section Scanning.

(** No match of "and" starts inside another one, so the matches found by
    the global scan are all the places where the substring starts. *)
Lemma scan_and_occurrences_gen (s : string) :
  List.length (Js.scan_literal "and" 0 s) = occurrences "and" s /\
  (prefix "nd" s = true ->
   List.length (Js.scan_literal "and" 2 s) = occurrences "and" s) /\
  (prefix "d" s = true ->
   List.length (Js.scan_literal "and" 1 s) = occurrences "and" s).
Proof.
  induction s as [|c s' (IH0 & IH2 & IH1)].
  - repeat split; intros; reflexivity.
  - cbn [Js.scan_literal occurrences prefix String.length Nat.sub].
    repeat split.
    + destruct (ascii_dec "a" c) as [_|_].
      * destruct (prefix "nd" s') eqn:Hnd.
        -- cbn [List.length]. rewrite (IH2 eq_refl). reflexivity.
        -- exact IH0.
      * exact IH0.
    + destruct (ascii_dec "n" c) as [<-|_]; [|discriminate].
      intros Hd. rewrite (IH1 Hd).
      destruct (ascii_dec "a" "n") as [E|_]; [discriminate E|reflexivity].
    + destruct (ascii_dec "d" c) as [<-|_]; [|discriminate].
      intros _. rewrite IH0.
      destruct (ascii_dec "a" "d") as [E|_]; [discriminate E|reflexivity].
Qed.

Lemma scan_and_occurrences (s : string) :
  List.length (Js.or_empty (Js.match_g s "and")) = occurrences "and" s.
Proof.
  unfold Js.match_g, Js.or_empty.
  rewrite <- (proj1 (scan_and_occurrences_gen s)).
  destruct (Js.scan_literal "and" 0 s); reflexivity.
Qed.

End Scanning.

(** ** The classifiers *)

Section Classifier.




Variables ld lu : string.





End Classifier.




(** C4, as the code has it.  For a description with no DRAGON keyword and
    none of "multiple", "several", "various", "complex", and an urgency
    without "critical", the result is HYDRA exactly when the substring
    "and" starts at more than two places of the lowercased description,
    inside longer words or not. *)
Theorem hydra_by_and_occurrences (d : string) (u : option string) :
  let ld := Js.toLowerCase d in
  let lu := Js.or_string (option_map Js.toLowerCase u) "" in
  (forall k, In k ["crash"; "down"; "critical"; "production"; "outage"] ->
     Js.includes ld k = false) ->
  Js.includes lu "critical" = false ->
  (forall k, In k ["multiple"; "several"; "various"; "complex"] ->
     Js.includes ld k = false) ->
  (classifyBugSeverity d u = HYDRA <-> (2 < occurrences "and" ld)%nat).
Proof.
  intros ld lu Hdragon Hurgent Hhydra.
  unfold classifyBugSeverity, classifyBugSeverityWith. cbv zeta. fold ld lu.
  rewrite scan_and_occurrences.
  rewrite !Hdragon, Hurgent, !Hhydra by (cbn; tauto).
  cbn [orb].
  destruct (2 <? occurrences "and" ld)%nat eqn:Hcount.
  - apply Nat.ltb_lt in Hcount. tauto.
  - apply Nat.ltb_ge in Hcount. split; [|lia].
    repeat match goal with
           | |- context [if ?c then _ else _] => destruct c
           end; discriminate.
Qed.

Lemma hydra_by_and_occurrences_witness :
  occurrences "and" (Js.toLowerCase "Rock AND roll and sand and gravel") = 4%nat /\
  classifyBugSeverity "Rock AND roll and sand and gravel" None = HYDRA.
Proof.
  split; [reflexivity|].
  apply (hydra_by_and_occurrences "Rock AND roll and sand and gravel" None).
  - intros k Hk. cbn in Hk.
    repeat (destruct Hk as [<-|Hk]; [reflexivity|]). destruct Hk.
  - reflexivity.
  - intros k Hk. cbn in Hk.
    repeat (destruct Hk as [<-|Hk]; [reflexivity|]). destruct Hk.
  - vm_compute. lia.
Defined.

(** C4 as stated fails: in "standard sandbox candy" no word is "and" and
    no DRAGON or HYDRA keyword occurs, yet the three words that contain
    "and" make it a HYDRA. *)
Lemma and_inside_words_is_counted :
  forallb (fun k => negb (Js.includes (Js.toLowerCase "standard sandbox candy") k))
    ["crash"; "down"; "critical"; "production"; "outage";
     "multiple"; "several"; "various"; "complex"] = true /\
  word_count "and" (Js.toLowerCase "standard sandbox candy") = 0%nat /\
  occurrences "and" (Js.toLowerCase "standard sandbox candy") = 3%nat /\
  classifyBugSeverity "standard sandbox candy" None = HYDRA.
Proof. repeat split. Qed.

(** C2 fails on the code: [classifyQuestType] computes the text of the
    tech stack and never reads it, so the result is the same for every
    tech stack, and a keyword that stands only there selects nothing. *)
Theorem classifyQuestType_ignores_techStack :
  (forall d t1 t2, classifyQuestType d t1 = classifyQuestType d t2) /\
  classifyQuestType "it is broken" (Some ["css"]) = LOGIC_QUEST /\
  classifyQuestType "the css is broken" None = UI_QUEST.
Proof. repeat split. Qed.

(** ** Runs of the monad *)

Section Runs.

Lemma bind_run {A B} (m : M A) (k : A -> M B) (s s' : State) (a : A) :
  m s = (Normal a, s') -> bind m k s = k a s'.
Proof. intros E. unfold bind. now rewrite E. Qed.

Lemma ret_keeps {A} (a : A) : keeps_context (ret a).
Proof. intros s. exists a, s. split; reflexivity. Qed.

Lemma bind_keeps {A B} (m : M A) (k : A -> M B) :
  keeps_context m -> (forall a, keeps_context (k a)) -> keeps_context (bind m k).
Proof.
  intros Hm Hk s.
  destruct (Hm s) as (a & s1 & E1 & C1).
  destruct (Hk a s1) as (b & s2 & E2 & C2).
  exists b, s2. rewrite (bind_run _ _ _ _ _ E1). split; [exact E2|congruence].
Qed.

Lemma Date_now_keeps : keeps_context Date_now.
Proof.
  intros s. unfold Date_now. destruct (clock s) as [|t later].
  - exists 0, s. split; reflexivity.
  - eexists _, _. split; reflexivity.
Qed.

Lemma Math_random_keeps : keeps_context Math_random.
Proof.
  intros s. unfold Math_random. destruct (entropy s) as [|r later].
  - exists 0%Q, s. split; reflexivity.
  - eexists _, _. split; reflexivity.
Qed.

Lemma getRandomResponse_keeps (responses : list string) :
  keeps_context (getRandomResponse responses).
Proof.
  apply bind_keeps; [apply Math_random_keeps|]. intros r. apply ret_keeps.
Qed.

Lemma read_context_run (s : State) : read_context s = (Normal (this_context s), s).
Proof. reflexivity. Qed.

Lemma addMilestone_run (q : Quest) (t d : string) (s : State) :
  exists now s',
    addMilestone q t d s =
      (Normal (push_milestone
                 {| milestone_timestamp := now; milestone_title := t;
                    milestone_description := d; milestone_phase := phase q |} q), s') /\
    this_context s' = this_context s.
Proof.
  destruct (Date_now_keeps s) as (now & s1 & E1 & C1).
  exists now, s1. unfold addMilestone. rewrite (bind_run _ _ _ _ _ E1).
  split; [reflexivity|exact C1].
Qed.

End Runs.

#[local] Hint Resolve ret_keeps bind_keeps Date_now_keeps Math_random_keeps
  getRandomResponse_keeps : engine.

(** ** The phase rule *)

Section PhaseRule.

Lemma updateQuestPhase_run (q : Quest) (s : State) :
  exists q' s',
    updateQuestPhase q s = (Normal q', s') /\
    this_context s' = this_context s /\
    updated q q'.
Proof.
  unfold updateQuestPhase, updated, phase_after_update.
  destruct (phase q) eqn:Hp; cbn [QuestPhase_eqb andb].
  - destruct (3 <=? List.length (findings q))%nat.
    + destruct (addMilestone_run (with_phase INVESTIGATION q) "Investigation Phase"
                  "Gathered enough information to begin deeper investigation" s)
        as (now & s1 & E1 & C1).
      eexists _, s1. split; [exact E1|]. split; [exact C1|].
      cbn. repeat split. right. split; [congruence|].
      eexists. split; reflexivity.
    + exists q, s. repeat split; try assumption. now left.
  - destruct (existsb _ (findings q) || (6 <=? List.length (findings q))%nat).
    + destruct (addMilestone_run (with_phase BATTLE q) "Battle Phase"
                  "Ready to implement and test solutions" s)
        as (now & s1 & E1 & C1).
      eexists _, s1. split; [exact E1|]. split; [exact C1|].
      cbn. repeat split. right. split; [congruence|].
      eexists. split; reflexivity.
    + exists q, s. repeat split; try assumption. now left.
  - exists q, s. repeat split; try assumption. now left.
  - exists q, s. repeat split; try assumption. now left.
Qed.

End PhaseRule.

(** ** What each public method does to the context *)

Section Methods.

Ltac step K :=
  match goal with
  | |- context [bind ?m ?k ?s] =>
      let a := fresh "a" in
      let s1 := fresh "s" in
      let E := fresh "E" in
      let C := fresh "C" in
      destruct ((K : keeps_context m) s) as (a & s1 & E & C);
      rewrite (bind_run m k s s1 a E)
  end.

Lemma modify_context_run (f : AdventureContext -> AdventureContext) (s : State) :
  modify_context f s =
    (Normal tt,
     {| this_context := f (this_context s); clock := clock s; entropy := entropy s |}).
Proof. reflexivity. Qed.

Lemma generateQuestId_keeps : keeps_context generateQuestId.
Proof. unfold generateQuestId. auto 6 with engine. Qed.

Lemma startQuest_run (d : string) (t : option (list string)) (u : option string)
    (s : State) :
  exists q r s',
    startQuest d t u s = (Normal (q, r), s') /\
    this_context s' = with_currentQuest (Some q) (this_context s) /\
    phase q = PREPARATION /\ findings q = [] /\ milestones q = [] /\
    bugSeverity q = classifyBugSeverity d u /\
    questType q = classifyQuestType d t /\
    description q = d /\ techStack q = t.
Proof.
  unfold startQuest. cbv zeta.
  step generateQuestId_keeps. step Date_now_keeps.
  rewrite (bind_run _ _ _ _ _ (modify_context_run _ _)).
  step (getRandomResponse_keeps (MENTOR_RESPONSES.encouragements (classifyBugSeverity d u))).
  step (getRandomResponse_keeps MENTOR_RESPONSES.greetings).
  eexists _, _, _. split; [reflexivity|].
  split; [|repeat split].
  rewrite C2, C1. cbn [this_context]. rewrite C0, C. reflexivity.
Qed.

Lemma continueQuest_idle (f : string) (sig : option Significance) (s : State) :
  currentQuest (this_context s) = None ->
  continueQuest f sig s =
    (Normal
       {| message :=
            "No active quest found! Use 'start_quest' to begin your debugging adventure.";
          questions := [];
          encouragement := "Ready to embark on a new debugging quest?";
          nextSuggestions := ["Start a new quest to begin your debugging journey"] |},
     s).
Proof.
  intros Hnone. unfold continueQuest. cbv zeta.
  rewrite (bind_run _ _ _ _ _ (read_context_run s)). now rewrite Hnone.
Qed.

Lemma seekWisdom_idle (h : string) (s : State) :
  currentQuest (this_context s) = None ->
  seekWisdom h s =
    (Normal
       {| message :=
            "Start a quest first, brave hero! I can only provide guidance when you have an active debugging challenge.";
          questions := [];
          encouragement := "Every great adventure begins with a single step!";
          nextSuggestions := ["Begin a new debugging quest"] |},
     s).
Proof.
  intros Hnone. unfold seekWisdom.
  rewrite (bind_run _ _ _ _ _ (read_context_run s)). now rewrite Hnone.
Qed.

Lemma completeQuest_idle (summary : option string) (s : State) :
  currentQuest (this_context s) = None ->
  completeQuest summary s =
    (Normal
       {| message := "No active quest to complete! Start a new adventure when you're ready.";
          questions := [];
          encouragement := "Every master was once a beginner!";
          nextSuggestions := ["Begin a new debugging quest"] |},
     s).
Proof.
  intros Hnone. unfold completeQuest.
  rewrite (bind_run _ _ _ _ _ (read_context_run s)). now rewrite Hnone.
Qed.

Lemma getQuestStatus_keeps : keeps_context getQuestStatus.
Proof.
  intros s. unfold getQuestStatus.
  rewrite (bind_run _ _ _ _ _ (read_context_run s)).
  destruct (currentQuest (this_context s)) as [q|].
  - step Date_now_keeps. eexists _, _. split; [reflexivity|exact C].
  - eexists _, _. split; reflexivity.
Qed.

(** With a quest open, [continueQuest] appends the finding, applies the
    phase rule to the quest and stores it back; the rest of the context
    stays. *)
Lemma continueQuest_run (f : string) (sig : option Significance) (s : State) (q : Quest) :
  currentQuest (this_context s) = Some q ->
  exists now q' r s',
    continueQuest f sig s = (Normal r, s') /\
    this_context s' = with_currentQuest (Some q') (this_context s) /\
    updated
      (push_finding
         {| finding_timestamp := now; finding := f;
            significance := match sig with Some x => x | None => moderate end |} q) q'.
Proof.
  intros Hq. unfold continueQuest. cbv zeta.
  rewrite (bind_run _ _ _ _ _ (read_context_run s)). rewrite Hq.
  step Date_now_keeps.
  match goal with
  | |- context [updateQuestPhase ?x] =>
      destruct (updateQuestPhase_run x s0) as (q' & s1 & E1 & C1 & Hup)
  end.
  rewrite (bind_run _ _ _ _ _ E1).
  rewrite (bind_run _ _ _ _ _ (modify_context_run _ _)).
  match goal with
  | |- context [bind (if ?c then _ else _) _ _] =>
      assert (Hack : keeps_context
                       (if c then getMilestoneAcknowledgment
                        else ret "Interesting discovery! This information helps build our understanding."))
        by (destruct c; unfold getMilestoneAcknowledgment; auto with engine)
  end.
  step Hack.
  step (getRandomResponse_keeps (MENTOR_RESPONSES.encouragements (bugSeverity q'))).
  exists a, q'. eexists _, _. split; [reflexivity|].
  split; [|exact Hup].
  rewrite C2, C0. cbn [this_context]. rewrite C1, C. reflexivity.
Qed.

Lemma seekWisdom_keeps (h : string) : keeps_context (seekWisdom h).
Proof.
  intros s. unfold seekWisdom.
  rewrite (bind_run _ _ _ _ _ (read_context_run s)).
  destruct (currentQuest (this_context s)) as [q|].
  - match goal with
    | |- context [let '(_, _) := ?p in _] => destruct p as [msg qs]
    end.
    step (getRandomResponse_keeps (MENTOR_RESPONSES.encouragements (bugSeverity q))).
    eexists _, _. split; [reflexivity|exact C].
  - eexists _, _. split; reflexivity.
Qed.

(** With a quest open, [completeQuest] archives it in phase VICTORY with
    the completion milestone, adds its experience and recomputes the
    level. *)
Lemma completeQuest_run (summary : option string) (s : State) (q : Quest) :
  currentQuest (this_context s) = Some q ->
  exists now r s',
    let closed :=
      push_milestone
        {| milestone_timestamp := now;
           milestone_title := "Quest Completed!";
           milestone_description :=
             Js.or_string summary "Hero successfully vanquished the bug!";
           milestone_phase := VICTORY |} (with_phase VICTORY q) in
    completeQuest summary s = (Normal r, s') /\
    this_context s' =
      {| currentQuest := None;
         completedQuests := completedQuests (this_context s) ++ [closed];
         totalExperience := totalExperience (this_context s) + calculateExperience closed;
         heroLevel :=
           (totalExperience (this_context s) + calculateExperience closed) / 100 + 1 |}.
Proof.
  intros Hq. unfold completeQuest. cbv zeta.
  rewrite (bind_run _ _ _ _ _ (read_context_run s)). rewrite Hq.
  step Date_now_keeps.
  rewrite (bind_run _ _ _ _ _ (modify_context_run _ _)).
  rewrite (bind_run _ _ _ _ _ (read_context_run _)).
  rewrite (bind_run _ _ _ _ _ (modify_context_run _ _)).
  rewrite (bind_run _ _ _ _ _ (modify_context_run _ _)).
  rewrite (bind_run _ _ _ _ _ (modify_context_run _ _)).
  step (getRandomResponse_keeps MENTOR_RESPONSES.victoryMessages).
  rewrite (bind_run _ _ _ _ _ (read_context_run _)).
  step Date_now_keeps.
  exists a. eexists _, _. split; [reflexivity|].
  rewrite C1, C0. cbn [this_context]. rewrite C. reflexivity.
Qed.

End Methods.

(** ** Operations without a current quest *)

(** C1, as the code has it.  Without a current quest, [continueQuest],
    [seekWisdom] and [completeQuest] complete normally: each returns its
    own fixed [MentorResponse], with no question, and leaves the whole
    state (current-quest slot, history, experience, level, and the clock
    and random source too) as it was. *)
Theorem no_quest_replies (s : State) :
  currentQuest (this_context s) = None ->
  (forall f sig,
     continueQuest f sig s =
       (Normal
          {| message :=
               "No active quest found! Use 'start_quest' to begin your debugging adventure.";
             questions := [];
             encouragement := "Ready to embark on a new debugging quest?";
             nextSuggestions := ["Start a new quest to begin your debugging journey"] |},
        s)) /\
  (forall h,
     seekWisdom h s =
       (Normal
          {| message :=
               "Start a quest first, brave hero! I can only provide guidance when you have an active debugging challenge.";
             questions := [];
             encouragement := "Every great adventure begins with a single step!";
             nextSuggestions := ["Begin a new debugging quest"] |},
        s)) /\
  (forall summary,
     completeQuest summary s =
       (Normal
          {| message :=
               "No active quest to complete! Start a new adventure when you're ready.";
             questions := [];
             encouragement := "Every master was once a beginner!";
             nextSuggestions := ["Begin a new debugging quest"] |},
        s)).
Proof.
  intros Hnone. repeat split; intros.
  - now apply continueQuest_idle.
  - now apply seekWisdom_idle.
  - now apply completeQuest_idle.
Qed.

Lemma no_quest_replies_witness :
  currentQuest (this_context fresh_engine) = None /\
  state_after (completeQuest (Some "fixed the typo")) fresh_engine = fresh_engine.
Proof.
  split; [reflexivity|].
  unfold state_after.
  now rewrite (proj2 (proj2 (no_quest_replies fresh_engine eq_refl)) (Some "fixed the typo")).
Defined.

(** C1 as stated fails: on a freshly built engine none of the three
    methods throws; each returns a [MentorResponse], and the three
    responses differ. *)
Lemma no_quest_is_not_an_error :
  (exists r, result_of (continueQuest "the label is misspelt" None) fresh_engine = Normal r) /\
  (exists r, result_of (seekWisdom "approach") fresh_engine = Normal r) /\
  (exists r, result_of (completeQuest None) fresh_engine = Normal r) /\
  ~ fails_with "NoActiveQuestError" (continueQuest "the label is misspelt" None) fresh_engine /\
  ~ fails_with "NoActiveQuestError" (seekWisdom "approach") fresh_engine /\
  ~ fails_with "NoActiveQuestError" (completeQuest None) fresh_engine /\
  result_of (seekWisdom "approach") fresh_engine <> result_of (completeQuest None) fresh_engine.
Proof.
  unfold fails_with, result_of.
  rewrite (continueQuest_idle _ _ fresh_engine eq_refl).
  rewrite (seekWisdom_idle _ fresh_engine eq_refl).
  rewrite (completeQuest_idle _ fresh_engine eq_refl).
  cbn [fst]. repeat split; try (eexists; reflexivity); discriminate.
Qed.

(** ** Opening a quest *)


(** ** Asking for guidance *)

Section Wisdom.

Lemma getRandomResponse_run (responses : list string) (s : State) :
  exists s',
    getRandomResponse responses s =
      (Normal
         (nth (Z.to_nat
                 (Qfloor (hd 0%Q (entropy s) *
                          inject_Z (Z.of_nat (List.length responses)))))
              responses "undefined"), s') /\
    this_context s' = this_context s.
Proof.
  unfold getRandomResponse, bind, Math_random, ret.
  destruct (entropy s) as [|r later]; eexists; split; reflexivity.
Qed.

Lemma seekWisdom_run (h : string) (s : State) (q : Quest) :
  currentQuest (this_context s) = Some q ->
  exists r s',
    seekWisdom h s = (Normal r, s') /\
    this_context s' = this_context s /\
    nextSuggestions r = getNextSuggestions q /\
    (let hl := Js.toLowerCase h in
     Js.includes hl "approach" || Js.includes hl "strategy" ||
     Js.includes hl "test" || Js.includes hl "verify" ||
     Js.includes hl "investigate" || Js.includes hl "explore" = false ->
     questions r = Js.slice_to 3 (getQuestQuestions (questType q) (phase q))).
Proof.
  intros Hq. unfold seekWisdom. cbv zeta.
  rewrite (bind_run _ _ _ _ _ (read_context_run s)). rewrite Hq.
  match goal with
  | |- context [let '(_, _) := ?p in _] => destruct p as [msg qs] eqn:Hbucket
  end.
  destruct (getRandomResponse_run (MENTOR_RESPONSES.encouragements (bugSeverity q)) s)
    as (s' & E & C).
  unfold getEncouragement. rewrite (bind_run _ _ _ _ _ E).
  eexists _, s'. split; [reflexivity|]. split; [exact C|]. split; [reflexivity|].
  cbn [questions]. intros Hgeneral.
  repeat (apply orb_false_elim in Hgeneral; destruct Hgeneral as [Hgeneral ?]).
  repeat match goal with
         | H : Js.includes _ _ = false |- _ => rewrite H in Hbucket; clear H
         end.
  cbn [orb] in Hbucket. now injection Hbucket as _ <-.
Qed.

Lemma seekWisdom_determined (h : string) (s1 s2 : State) (q1 q2 : Quest) :
  currentQuest (this_context s1) = Some q1 ->
  currentQuest (this_context s2) = Some q2 ->
  entropy s1 = entropy s2 ->
  questType q1 = questType q2 ->
  bugSeverity q1 = bugSeverity q2 ->
  phase q1 = phase q2 ->
  result_of (seekWisdom h) s1 = result_of (seekWisdom h) s2.
Proof.
  intros Hq1 Hq2 Hentropy Htype Hsev Hphase.
  unfold result_of, seekWisdom. cbv zeta.
  rewrite !(bind_run _ _ _ _ _ (read_context_run _)). rewrite Hq1, Hq2.
  unfold getNextSuggestions, getEncouragement. rewrite <- Htype, <- Hsev, <- Hphase.
  match goal with
  | |- context [let '(_, _) := ?p in _] => destruct p as [msg qs]
  end.
  destruct (getRandomResponse_run (MENTOR_RESPONSES.encouragements (bugSeverity q1)) s1)
    as (s1' & E1 & _).
  destruct (getRandomResponse_run (MENTOR_RESPONSES.encouragements (bugSeverity q1)) s2)
    as (s2' & E2 & _).
  rewrite (bind_run _ _ _ _ _ E1), (bind_run _ _ _ _ _ E2), Hentropy.
  reflexivity.
Qed.

End Wisdom.

(** C9, as the code has it.  With a quest open, [seekWisdom] completes
    normally and leaves the context (current quest with its phase,
    findings and milestones, history, experience, level) exactly as it
    was.  Its result does read the phase: the suggestions are the list of
    the quest's phase and, when the help type names none of the three
    topics, the questions are the first three of the quest's category and
    phase.  Beyond the help type and the random draw, the result is
    fixed by the quest's category, severity and phase. *)
Theorem seekWisdom_reads_without_writing (h : string) (s : State) (q : Quest) :
  currentQuest (this_context s) = Some q ->
  exists r s',
    seekWisdom h s = (Normal r, s') /\
    this_context s' = this_context s /\
    nextSuggestions r = getNextSuggestions q /\
    (let hl := Js.toLowerCase h in
     Js.includes hl "approach" || Js.includes hl "strategy" ||
     Js.includes hl "test" || Js.includes hl "verify" ||
     Js.includes hl "investigate" || Js.includes hl "explore" = false ->
     questions r = Js.slice_to 3 (getQuestQuestions (questType q) (phase q))) /\
    (forall s2 q2,
       currentQuest (this_context s2) = Some q2 ->
       entropy s2 = entropy s ->
       questType q2 = questType q ->
       bugSeverity q2 = bugSeverity q ->
       phase q2 = phase q ->
       result_of (seekWisdom h) s2 = Normal r).
Proof.
  intros Hq.
  destruct (seekWisdom_run h s q Hq) as (r & s' & E & C & Hnext & Hgeneral).
  exists r, s'. repeat split; try assumption.
  intros s2 q2 Hq2 Hentropy Htype Hsev Hphase.
  rewrite (seekWisdom_determined h s2 s q2 q Hq2 Hq Hentropy Htype Hsev Hphase).
  unfold result_of. now rewrite E.
Qed.

Lemma seekWisdom_reads_without_writing_witness :
  currentQuest (this_context (engine_in_phase BATTLE)) = Some (sample_quest BATTLE) /\
  context_after (seekWisdom "how do I test this?") (engine_in_phase BATTLE) =
    this_context (engine_in_phase BATTLE).
Proof.
  split; [reflexivity|].
  destruct (seekWisdom_reads_without_writing "how do I test this?"
              (engine_in_phase BATTLE) (sample_quest BATTLE) eq_refl)
    as (r & s' & E & C & _).
  unfold context_after, state_after. rewrite E. exact C.
Defined.

(** C9 as stated fails in its last part: two engines that differ only in
    the phase of the current quest get different results for the same
    help type. *)
Lemma seekWisdom_result_follows_phase :
  this_context (engine_in_phase INVESTIGATION) =
    with_currentQuest (Some (with_phase INVESTIGATION (sample_quest PREPARATION)))
      (this_context (engine_in_phase PREPARATION)) /\
  (exists r1 r2,
     result_of (seekWisdom "approach") (engine_in_phase PREPARATION) = Normal r1 /\
     result_of (seekWisdom "approach") (engine_in_phase INVESTIGATION) = Normal r2 /\
     nextSuggestions r1 =
       [ "Gather more details about the problem";
         "Create a minimal reproduction case";
         "Check what changed recently" ] /\
     nextSuggestions r2 =
       [ "Test your hypotheses systematically";
         "Add debugging information to see what's happening";
         "Try isolating the problem area" ] /\
     r1 <> r2) /\
  (exists r1 r2,
     result_of (seekWisdom "help") (engine_in_phase PREPARATION) = Normal r1 /\
     result_of (seekWisdom "help") (engine_in_phase INVESTIGATION) = Normal r2 /\
     questions r1 <> questions r2).
Proof.
  split; [reflexivity|]. split.
  - eexists _, _. split; [reflexivity|]. split; [reflexivity|].
    split; [reflexivity|]. split; [reflexivity|]. discriminate.
  - eexists _, _. split; [reflexivity|]. split; [reflexivity|]. discriminate.
Qed.

(** ** Sequences of operations *)

Section Sequences.

Lemma continueQuest_normal (f : string) (g : option Significance) (s : State) :
  exists r s', continueQuest f g s = (Normal r, s').
Proof.
  destruct (currentQuest (this_context s)) as [q|] eqn:Hq.
  - destruct (continueQuest_run f g s q Hq) as (now & q' & r & s' & E & _).
    now exists r, s'.
  - eexists _, _. now apply continueQuest_idle.
Qed.

Lemma completeQuest_normal (summary : option string) (s : State) :
  exists r s', completeQuest summary s = (Normal r, s').
Proof.
  destruct (currentQuest (this_context s)) as [q|] eqn:Hq.
  - destruct (completeQuest_run summary s q Hq) as (now & r & s' & E & _).
    now exists r, s'.
  - eexists _, _. now apply completeQuest_idle.
Qed.

(** Every operation completes normally, in the state its method ends in. *)
Lemma perform_run (op : Operation) (s : State) :
  perform op s =
    (Normal tt,
     match op with
     | start_quest d t u => state_after (startQuest d t u) s
     | continue_quest f g => state_after (continueQuest f g) s
     | get_quest_status => state_after getQuestStatus s
     | seek_wisdom h => state_after (seekWisdom h) s
     | complete_quest summary => state_after (completeQuest summary) s
     end).
Proof.
  unfold state_after. destruct op as [d t u|f g| |h|summary]; cbn [perform].
  - destruct (startQuest_run d t u s) as (q & r & s' & E & _).
    now rewrite (bind_run _ _ _ _ _ E), E.
  - destruct (continueQuest_normal f g s) as (r & s' & E).
    now rewrite (bind_run _ _ _ _ _ E), E.
  - destruct (getQuestStatus_keeps s) as (r & s' & E & _).
    now rewrite (bind_run _ _ _ _ _ E), E.
  - destruct (seekWisdom_keeps h s) as (r & s' & E & _).
    now rewrite (bind_run _ _ _ _ _ E), E.
  - destruct (completeQuest_normal summary s) as (r & s' & E).
    now rewrite (bind_run _ _ _ _ _ E), E.
Qed.

Lemma state_after_cons (op : Operation) (rest : list Operation) (s : State) :
  state_after (perform_all (op :: rest)) s =
  state_after (perform_all rest) (state_after (perform op) s).
Proof.
  unfold state_after at 1 3. cbn [perform_all].
  now rewrite (bind_run _ _ _ _ _ (perform_run op s)), perform_run.
Qed.

Lemma state_after_app (ops1 ops2 : list Operation) (s : State) :
  state_after (perform_all (ops1 ++ ops2)) s =
  state_after (perform_all ops2) (state_after (perform_all ops1) s).
Proof.
  revert s. induction ops1 as [|op ops1 IH]; intros s.
  - reflexivity.
  - cbn [app]. now rewrite !state_after_cons, IH.
Qed.

Lemma state_after_perform_continue (f : string) (g : option Significance) (s : State) :
  state_after (perform (continue_quest f g)) s = state_after (continueQuest f g) s.
Proof. unfold state_after at 1. now rewrite perform_run. Qed.

Lemma state_after_perform_start d t u (s : State) :
  state_after (perform (start_quest d t u)) s = state_after (startQuest d t u) s.
Proof. unfold state_after at 1. now rewrite perform_run. Qed.

Lemma state_after_perform_complete summary (s : State) :
  state_after (perform (complete_quest summary)) s = state_after (completeQuest summary) s.
Proof. unfold state_after at 1. now rewrite perform_run. Qed.

End Sequences.

(** ** One finding *)

Section OneFinding.

Lemma phase_after_update_rank (q : Quest) :
  (phase_rank (phase q) <= phase_rank (phase_after_update q) <= phase_rank (phase q) + 1)%nat /\
  (phase_after_update q = VICTORY -> phase q = VICTORY).
Proof.
  unfold phase_after_update.
  destruct (phase q);
    repeat match goal with
           | |- context [if ?c then _ else _] => destruct c
           end;
    cbn; split; (lia || congruence || discriminate).
Qed.

Lemma Significance_eqb_eq (a b : Significance) : Significance_eqb a b = true <-> a = b.
Proof. destruct a, b; cbn; split; congruence. Qed.

Lemma breakthrough_scan (q : Quest) :
  existsb (fun f => Significance_eqb (significance f) breakthrough) (findings q) = true <->
  has_breakthrough q.
Proof.
  unfold has_breakthrough. rewrite existsb_exists.
  split; intros (x & Hin & Hx); exists x; split; try assumption;
    now apply Significance_eqb_eq.
Qed.

(** The state of the current quest after one call of [continueQuest]. *)
Lemma continueQuest_step (f : string) (g : option Significance) (s : State) (q : Quest) :
  currentQuest (this_context s) = Some q ->
  exists now q',
    this_context (state_after (continueQuest f g) s) =
      with_currentQuest (Some q') (this_context s) /\
    findings q' =
      findings q ++
        [{| finding_timestamp := now; finding := f; significance := recorded g |}] /\
    bugSeverity q' = bugSeverity q /\
    questType q' = questType q /\
    phase q' =
      phase_after_update
        (push_finding
           {| finding_timestamp := now; finding := f; significance := recorded g |} q) /\
    ((phase q' = phase q /\ milestones q' = milestones q) \/
     (phase q' <> phase q /\
      exists m, milestones q' = milestones q ++ [m] /\ milestone_phase m = phase q')).
Proof.
  intros Hq.
  destruct (continueQuest_run f g s q Hq)
    as (now & q' & r & s' & E & C & Hphase & Hfind & Hsev & Htype & Hmile).
  exists now, q'. unfold state_after. rewrite E. cbn [snd].
  repeat split; assumption.
Qed.

End OneFinding.

Section Scenarios.

(** A finding appended in phase PREPARATION. *)
Lemma continueQuest_in_preparation (f : string) (g : option Significance)
    (s : State) (q : Quest) :
  currentQuest (this_context s) = Some q ->
  phase q = PREPARATION ->
  exists now q',
    this_context (state_after (continueQuest f g) s) =
      with_currentQuest (Some q') (this_context s) /\
    findings q' =
      findings q ++
        [{| finding_timestamp := now; finding := f; significance := recorded g |}] /\
    bugSeverity q' = bugSeverity q /\
    if (2 <=? List.length (findings q))%nat
    then phase q' = INVESTIGATION /\ exists m, milestones q' = milestones q ++ [m]
    else phase q' = PREPARATION /\ milestones q' = milestones q.
Proof.
  intros Hq Hprep.
  destruct (continueQuest_step f g s q Hq)
    as (now & q' & C & Hfind & Hsev & _ & Hphase & Hmile).
  exists now, q'. repeat (split; [assumption|]).
  unfold phase_after_update in Hphase.
  cbn [phase findings push_finding] in Hphase.
  rewrite Hprep, length_app, Nat.add_comm in Hphase. cbn [List.length Nat.add] in Hphase.
  change (3 <=? S (List.length (findings q)))%nat
    with (2 <=? List.length (findings q))%nat in Hphase.
  destruct (2 <=? List.length (findings q))%nat.
  - split; [exact Hphase|].
    destruct Hmile as [[Hsame _]|[_ (m & Hm & _)]]; [congruence|now exists m].
  - split; [exact Hphase|].
    destruct Hmile as [[_ Hm]|[Hmoved _]]; [exact Hm|congruence].
Qed.

(** A quest just opened, after two findings. *)
Lemma two_findings (d : string) (t : option (list string)) (u : option string)
    (f1 f2 : string) (g1 g2 : option Significance) (s : State) :
  exists q2,
    this_context
      (state_after
         (perform_all [start_quest d t u; continue_quest f1 g1; continue_quest f2 g2]) s) =
      with_currentQuest (Some q2) (this_context s) /\
    phase q2 = PREPARATION /\ milestones q2 = [] /\
    List.length (findings q2) = 2%nat /\
    (exists x1 x2, findings q2 = [x1; x2] /\
                   significance x1 = recorded g1 /\ significance x2 = recorded g2) /\
    bugSeverity q2 = classifyBugSeverity d u.
Proof.
  rewrite !state_after_cons. cbn [perform_all].
  rewrite state_after_perform_start, !state_after_perform_continue.
  destruct (startQuest_run d t u s)
    as (q0 & r0 & s0 & E0 & C0 & Hp0 & Hf0 & Hm0 & Hsev0 & _).
  unfold state_after at 4. rewrite E0. cbn [snd].
  assert (Hq0 : currentQuest (this_context s0) = Some q0) by now rewrite C0.
  destruct (continueQuest_in_preparation f1 g1 s0 q0 Hq0 Hp0)
    as (n1 & q1 & C1 & Hf1 & Hsev1 & H1).
  rewrite Hf0 in Hf1, H1. cbn in H1. destruct H1 as [Hp1 Hm1].
  assert (Hq1 : currentQuest (this_context (state_after (continueQuest f1 g1) s0)) = Some q1)
    by now rewrite C1.
  destruct (continueQuest_in_preparation f2 g2 _ q1 Hq1 Hp1)
    as (n2 & q2 & C2 & Hf2 & Hsev2 & H2).
  rewrite Hf1 in Hf2, H2. cbn in H2, Hf2. destruct H2 as [Hp2 Hm2].
  exists q2. unfold state_after at 1. cbn [perform_all ret snd].
  rewrite C2, C1, C0. split; [reflexivity|].
  split; [exact Hp2|]. split; [congruence|]. split; [now rewrite Hf2|].
  split; [|congruence].
  eexists _, _. split; [exact Hf2|]. split; reflexivity.
Qed.

End Scenarios.

(** C5.  For every call of [continueQuest] on an open quest, with [n] the
    number of findings after the append: from PREPARATION the phase
    becomes INVESTIGATION when [n >= 3] and stays otherwise; from
    INVESTIGATION it becomes BATTLE when [n >= 6] or some finding of the
    whole history is a breakthrough, and stays otherwise; from BATTLE it
    stays; a change of phase appends exactly one milestone and no
    milestone is appended otherwise.  And after opening a quest, two
    findings leave it in PREPARATION with no milestone, and a third of
    any significance moves it to INVESTIGATION with one milestone. *)
Theorem phase_advance_rule :
  (forall f g s q,
     currentQuest (this_context s) = Some q ->
     exists now q',
       currentQuest (context_after (continueQuest f g) s) = Some q' /\
       findings q' =
         findings q ++
           [{| finding_timestamp := now; finding := f; significance := recorded g |}] /\
       (phase q = PREPARATION ->
        ((3 <= List.length (findings q'))%nat -> phase q' = INVESTIGATION) /\
        ((List.length (findings q') < 3)%nat -> phase q' = PREPARATION)) /\
       (phase q = INVESTIGATION ->
        ((6 <= List.length (findings q'))%nat \/ has_breakthrough q' -> phase q' = BATTLE) /\
        (~ ((6 <= List.length (findings q'))%nat \/ has_breakthrough q') ->
         phase q' = INVESTIGATION)) /\
       (phase q = BATTLE -> phase q' = BATTLE) /\
       (phase q' <> phase q -> exists m, milestones q' = milestones q ++ [m]) /\
       (phase q' = phase q -> milestones q' = milestones q)) /\
  (forall d t u f1 g1 f2 g2 f3 g3 s,
     exists q2 q3,
       currentQuest
         (context_after
            (perform_all [start_quest d t u; continue_quest f1 g1; continue_quest f2 g2])
            s) = Some q2 /\
       phase q2 = PREPARATION /\ milestones q2 = [] /\
       currentQuest
         (context_after
            (perform_all [start_quest d t u; continue_quest f1 g1; continue_quest f2 g2;
                          continue_quest f3 g3]) s) = Some q3 /\
       phase q3 = INVESTIGATION /\ List.length (milestones q3) = 1%nat).
Proof.
  split.
  - intros f g s q Hq.
    destruct (continueQuest_step f g s q Hq)
      as (now & q' & C & Hfind & _ & _ & Hphase & Hmile).
    exists now, q'. unfold context_after. rewrite C.
    split; [reflexivity|]. split; [exact Hfind|].
    unfold phase_after_update in Hphase.
    cbn [phase findings push_finding] in Hphase. rewrite <- Hfind in Hphase.
    pose proof (breakthrough_scan q') as Hscan.
    split; [|split; [|split; [|split]]].
    + intros Hprep. rewrite Hprep in Hphase. split; intros Hn.
      * apply Nat.leb_le in Hn. now rewrite Hn in Hphase.
      * apply Nat.leb_gt in Hn. now rewrite Hn in Hphase.
    + intros Hinv. rewrite Hinv in Hphase. split.
      * intros Hgo.
        replace (_ || _) with true in Hphase; [exact Hphase|].
        symmetry. apply orb_true_intro.
        destruct Hgo as [Hn|Hb]; [right; now apply Nat.leb_le|left; now apply Hscan].
      * intros Hstay.
        replace (_ || _) with false in Hphase; [exact Hphase|].
        symmetry. apply orb_false_intro.
        -- destruct (existsb _ (findings q')) eqn:Hb; [|reflexivity].
           exfalso. apply Hstay. right. now apply Hscan.
        -- apply Nat.leb_gt. lia.
    + intros Hbattle. now rewrite Hbattle in Hphase.
    + intros Hmoved. destruct Hmile as [[Hsame _]|[_ (m & Hm & _)]];
        [contradiction|now exists m].
    + intros Hsame. destruct Hmile as [[_ Hm]|[Hmoved _]]; [exact Hm|contradiction].
  - intros d t u f1 g1 f2 g2 f3 g3 s.
    destruct (two_findings d t u f1 f2 g1 g2 s)
      as (q2 & C2 & Hp2 & Hm2 & Hn2 & _).
    set (s2 := state_after
                 (perform_all [start_quest d t u; continue_quest f1 g1; continue_quest f2 g2])
                 s) in *.
    assert (Hq2 : currentQuest (this_context s2) = Some q2) by now rewrite C2.
    destruct (continueQuest_in_preparation f3 g3 s2 q2 Hq2 Hp2)
      as (n3 & q3 & C3 & _ & _ & H3).
    rewrite Hn2 in H3. cbn in H3. destruct H3 as (Hp3 & m & Hm3).
    exists q2, q3. split; [exact Hq2|]. split; [exact Hp2|]. split; [exact Hm2|].
    split; [|split; [exact Hp3|now rewrite Hm3, Hm2]].
    change [start_quest d t u; continue_quest f1 g1; continue_quest f2 g2;
            continue_quest f3 g3]
      with ([start_quest d t u; continue_quest f1 g1; continue_quest f2 g2] ++
            [continue_quest f3 g3]).
    unfold context_after. rewrite state_after_app. fold s2.
    rewrite state_after_cons, state_after_perform_continue.
    unfold state_after at 1. cbn [perform_all ret snd]. now rewrite C3.
Qed.

Lemma phase_advance_rule_witness :
  currentQuest (this_context (engine_in_phase INVESTIGATION)) =
    Some (sample_quest INVESTIGATION) /\
  exists q',
    currentQuest
      (context_after (continueQuest "the loop bound is off by one" (Some breakthrough))
         (engine_in_phase INVESTIGATION)) = Some q' /\
    phase q' = BATTLE.
Proof.
  split; [reflexivity|].
  destruct (proj1 phase_advance_rule "the loop bound is off by one" (Some breakthrough)
              (engine_in_phase INVESTIGATION) (sample_quest INVESTIGATION) eq_refl)
    as (now & q' & Hq' & Hfind & _ & Hinv & _).
  exists q'. split; [exact Hq'|].
  apply (proj1 (Hinv eq_refl)). right.
  exists {| finding_timestamp := now; finding := "the loop bound is off by one";
            significance := breakthrough |}.
  rewrite Hfind. split; [|reflexivity]. apply in_or_app. right. now left.
Defined.

(** C10.  One call of [continueQuest] moves the phase of the open quest
    by at most one step.  In particular, a breakthrough recorded as the
    third finding of a quest in PREPARATION leaves the quest in
    INVESTIGATION, and it is the next call, whatever it records, that
    moves the quest to BATTLE. *)
Theorem one_step_per_finding :
  (forall f g s q,
     currentQuest (this_context s) = Some q ->
     exists q',
       currentQuest (context_after (continueQuest f g) s) = Some q' /\
       (phase_rank (phase q) <= phase_rank (phase q') <= phase_rank (phase q) + 1)%nat) /\
  (forall f s q,
     currentQuest (this_context s) = Some q ->
     phase q = PREPARATION ->
     List.length (findings q) = 2%nat ->
     exists q',
       currentQuest (context_after (continueQuest f (Some breakthrough)) s) = Some q' /\
       phase q' = INVESTIGATION /\
       has_breakthrough q' /\
       forall f' g',
       exists q'',
         currentQuest
           (context_after (continueQuest f' g')
              (state_after (continueQuest f (Some breakthrough)) s)) = Some q'' /\
         phase q'' = BATTLE).
Proof.
  split.
  - intros f g s q Hq.
    destruct (continueQuest_step f g s q Hq)
      as (now & q' & C & _ & _ & _ & Hphase & _).
    exists q'. unfold context_after. rewrite C. split; [reflexivity|].
    rewrite Hphase. apply (phase_after_update_rank (push_finding _ q)).
  - intros f s q Hq Hprep Hn.
    destruct (continueQuest_in_preparation f (Some breakthrough) s q Hq Hprep)
      as (now & q' & C & Hfind & _ & H).
    rewrite Hn in H. cbn in H. destruct H as [Hinv _].
    assert (Hq' : currentQuest
                    (this_context (state_after (continueQuest f (Some breakthrough)) s)) =
                  Some q') by now rewrite C.
    assert (Hb : has_breakthrough q').
    { eexists. rewrite Hfind. split; [apply in_or_app; right; now left|reflexivity]. }
    exists q'. split; [exact Hq'|]. split; [exact Hinv|]. split; [exact Hb|].
    intros f' g'.
    destruct (continueQuest_step f' g' _ q' Hq')
      as (now' & q'' & C' & _ & _ & _ & Hphase & _).
    exists q''. unfold context_after. rewrite C'. split; [reflexivity|].
    rewrite Hphase. unfold phase_after_update. cbn [phase findings push_finding].
    rewrite Hinv, existsb_app.
    apply breakthrough_scan in Hb. now rewrite Hb.
Qed.

(** A quest opened and given two findings: the third, a breakthrough,
    fulfils the conditions of both transitions and moves the quest to
    INVESTIGATION only; the fourth moves it to BATTLE. *)
Lemma one_step_per_finding_witness :
  exists q q' q'',
    currentQuest
      (this_context
         (state_after
            (perform_all [start_quest "typo in a label" None None;
                          continue_quest "the label reads Sumbit" None;
                          continue_quest "the text comes from one template" None])
            fresh_engine)) = Some q /\
    phase q = PREPARATION /\
    List.length (findings q) = 2%nat /\
    currentQuest
      (context_after (continueQuest "the template has the typo" (Some breakthrough))
         (state_after
            (perform_all [start_quest "typo in a label" None None;
                          continue_quest "the label reads Sumbit" None;
                          continue_quest "the text comes from one template" None])
            fresh_engine)) = Some q' /\
    phase q' = INVESTIGATION /\
    has_breakthrough q' /\
    currentQuest
      (context_after (continueQuest "fixed the template" None)
         (state_after (continueQuest "the template has the typo" (Some breakthrough))
            (state_after
               (perform_all [start_quest "typo in a label" None None;
                             continue_quest "the label reads Sumbit" None;
                             continue_quest "the text comes from one template" None])
               fresh_engine))) = Some q'' /\
    phase q'' = BATTLE.
Proof.
  pose proof (fun q H1 H2 H3 =>
                proj2 one_step_per_finding "the template has the typo"
                  (state_after
                     (perform_all [start_quest "typo in a label" None None;
                                   continue_quest "the label reads Sumbit" None;
                                   continue_quest "the text comes from one template" None])
                     fresh_engine) q H1 H2 H3) as Hthird.
  specialize (Hthird _ eq_refl eq_refl eq_refl).
  destruct Hthird as (q' & Hq' & Hinv & Hb & Hnext).
  destruct (Hnext "fixed the template" None) as (q'' & Hq'' & Hbattle).
  eexists _, q', q''.
  split; [reflexivity|]. split; [reflexivity|]. split; [reflexivity|].
  split; [exact Hq'|]. split; [exact Hinv|]. split; [exact Hb|].
  split; [exact Hq''|exact Hbattle].
Defined.

(** ** Closing a quest *)

(** C7.  [completeQuest] archives the open quest with its completion
    milestone and adds to the experience exactly
    [base + 2 * findings + 5 * milestones], where [base] is 10, 25, 50,
    100, 150 for GOBLIN, ORC, TROLL, DRAGON, HYDRA and the milestones are
    those of the archived quest, completion milestone included.  A GOBLIN
    quest opened, given two findings and closed earns 19. *)
Theorem experience_exactness :
  map baseXP [GOBLIN; ORC; TROLL; DRAGON; HYDRA] = [10; 25; 50; 100; 150] /\
  (forall summary s q,
     currentQuest (this_context s) = Some q ->
     exists closed,
       completedQuests (context_after (completeQuest summary) s) =
         completedQuests (this_context s) ++ [closed] /\
       bugSeverity closed = bugSeverity q /\
       findings closed = findings q /\
       List.length (milestones closed) = S (List.length (milestones q)) /\
       totalExperience (context_after (completeQuest summary) s) =
         totalExperience (this_context s) +
         (baseXP (bugSeverity closed) +
          2 * Z.of_nat (List.length (findings closed)) +
          5 * Z.of_nat (List.length (milestones closed)))) /\
  (forall d t u f1 g1 f2 g2 summary s,
     classifyBugSeverity d u = GOBLIN ->
     totalExperience
       (context_after
          (perform_all [start_quest d t u; continue_quest f1 g1; continue_quest f2 g2;
                        complete_quest summary]) s) =
     totalExperience (this_context s) + 19).
Proof.
  split; [reflexivity|]. split.
  - intros summary s q Hq.
    destruct (completeQuest_run summary s q Hq) as (now & r & s' & E & C).
    eexists. unfold context_after, state_after. rewrite E. cbn [snd]. rewrite C.
    cbn [completedQuests totalExperience].
    split; [reflexivity|]. split; [reflexivity|]. split; [reflexivity|].
    split; [cbn [milestones push_milestone with_phase]; rewrite length_app; cbn; lia|].
    unfold calculateExperience. lia.
  - intros d t u f1 g1 f2 g2 summary s Hgoblin.
    destruct (two_findings d t u f1 f2 g1 g2 s)
      as (q2 & C2 & _ & Hm2 & Hn2 & _ & Hsev2).
    change [start_quest d t u; continue_quest f1 g1; continue_quest f2 g2;
            complete_quest summary]
      with ([start_quest d t u; continue_quest f1 g1; continue_quest f2 g2] ++
            [complete_quest summary]).
    unfold context_after. rewrite state_after_app.
    set (s2 := state_after
                 (perform_all [start_quest d t u; continue_quest f1 g1; continue_quest f2 g2])
                 s) in *.
    rewrite state_after_cons, state_after_perform_complete.
    unfold state_after at 1. cbn [perform_all ret snd].
    assert (Hq2 : currentQuest (this_context s2) = Some q2) by now rewrite C2.
    destruct (completeQuest_run summary s2 q2 Hq2) as (now & r & s' & E & C).
    unfold state_after. rewrite E. cbn [snd]. rewrite C. cbn [totalExperience].
    unfold calculateExperience.
    cbn [bugSeverity findings milestones push_milestone with_phase].
    rewrite Hsev2, Hgoblin, Hn2, Hm2, C2. reflexivity.
Qed.

Lemma experience_exactness_witness :
  classifyBugSeverity "typo in a label" None = GOBLIN /\
  totalExperience
    (context_after
       (perform_all [start_quest "typo in a label" None None;
                     continue_quest "the label reads Sumbit" None;
                     continue_quest "the text comes from one template" (Some minor);
                     complete_quest (Some "fixed the template")]) fresh_engine) = 19.
Proof.
  split; [reflexivity|].
  apply (proj2 (proj2 experience_exactness) "typo in a label" None None
           "the label reads Sumbit" None "the text comes from one template" (Some minor)
           (Some "fixed the template") fresh_engine).
  reflexivity.
Defined.

(** ** The phase over a quest's lifetime *)

Section Lifetime.

Lemma phase_rank_bound (p : QuestPhase) : (phase_rank p <= phase_rank VICTORY)%nat.
Proof. destruct p; cbn; lia. Qed.

Lemma state_after_perform (op : Operation) (s : State) :
  state_after (perform op) s =
    match op with
    | start_quest d t u => state_after (startQuest d t u) s
    | continue_quest f g => state_after (continueQuest f g) s
    | get_quest_status => state_after getQuestStatus s
    | seek_wisdom h => state_after (seekWisdom h) s
    | complete_quest summary => state_after (completeQuest summary) s
    end.
Proof. unfold state_after at 1. now rewrite perform_run. Qed.

Lemma keeps_context_after {A} (m : M A) (s : State) :
  keeps_context m -> this_context (state_after m s) = this_context s.
Proof.
  intros K. destruct (K s) as (a & s' & E & C).
  unfold state_after. now rewrite E.
Qed.

(** One operation on an open quest: the quest stays open, no lower in
    phase, or it is archived in phase VICTORY by [complete_quest]. *)
Lemma lifetime_step_open (op : Operation) (s : State) (q : Quest) (n0 : nat) :
  in_lifetime op = true ->
  currentQuest (this_context s) = Some q ->
  List.length (completedQuests (this_context s)) = n0 ->
  (exists q',
     currentQuest (this_context (state_after (perform op) s)) = Some q' /\
     List.length (completedQuests (this_context (state_after (perform op) s))) = n0 /\
     (phase_rank (phase q) <= phase_rank (phase q'))%nat /\
     (phase q' = VICTORY -> phase q = VICTORY)) \/
  (exists q',
     currentQuest (this_context (state_after (perform op) s)) = None /\
     nth_error (completedQuests (this_context (state_after (perform op) s))) n0 = Some q' /\
     phase q' = VICTORY /\
     is_close op = true).
Proof.
  intros Hop Hq Hn. rewrite state_after_perform.
  destruct op as [d t u|f g| |h|summary]; [discriminate| | | |].
  - left.
    destruct (continueQuest_step f g s q Hq)
      as (now & q' & C & _ & _ & _ & Hphase & _).
    exists q'. rewrite C. split; [reflexivity|]. split; [exact Hn|].
    rewrite Hphase.
    destruct (phase_after_update_rank
                (push_finding
                   {| finding_timestamp := now; finding := f; significance := recorded g |}
                   q)) as [[Hle _] Hvictory].
    split; [exact Hle|exact Hvictory].
  - left. exists q. rewrite (keeps_context_after _ s getQuestStatus_keeps).
    repeat split; try assumption; [lia|tauto].
  - left. exists q. rewrite (keeps_context_after _ s (seekWisdom_keeps h)).
    repeat split; try assumption; [lia|tauto].
  - right.
    destruct (completeQuest_run summary s q Hq) as (now & r & s' & E & C).
    eexists. unfold state_after. rewrite E. cbn [snd]. rewrite C.
    cbn [currentQuest completedQuests].
    split; [reflexivity|].
    split; [rewrite nth_error_app2 by lia; subst n0; now rewrite Nat.sub_diag|].
    split; reflexivity.
Qed.

(** Without an open quest, the operations of a lifetime change nothing. *)
Lemma lifetime_step_closed (op : Operation) (s : State) :
  in_lifetime op = true ->
  currentQuest (this_context s) = None ->
  this_context (state_after (perform op) s) = this_context s.
Proof.
  intros Hop Hnone. rewrite state_after_perform.
  destruct op as [d t u|f g| |h|summary]; [discriminate| | | |].
  - unfold state_after. now rewrite (continueQuest_idle f g s Hnone).
  - apply keeps_context_after, getQuestStatus_keeps.
  - apply keeps_context_after, seekWisdom_keeps.
  - unfold state_after. now rewrite (completeQuest_idle summary s Hnone).
Qed.

Lemma lifetime_run_closed (ops : list Operation) (s : State) :
  forallb in_lifetime ops = true ->
  currentQuest (this_context s) = None ->
  this_context (state_after (perform_all ops) s) = this_context s.
Proof.
  revert s. induction ops as [|op ops IH]; intros s Hops Hnone; [reflexivity|].
  cbn [forallb] in Hops. apply andb_prop in Hops. destruct Hops as [Hop Hops].
  pose proof (lifetime_step_closed op s Hop Hnone) as Hstep.
  rewrite state_after_cons, IH; [exact Hstep|exact Hops|now rewrite Hstep].
Qed.

Lemma lifetime_run_open (ops : list Operation) (s : State) (q : Quest) (n0 : nat) :
  forallb in_lifetime ops = true ->
  currentQuest (this_context s) = Some q ->
  List.length (completedQuests (this_context s)) = n0 ->
  (exists q',
     currentQuest (this_context (state_after (perform_all ops) s)) = Some q' /\
     List.length (completedQuests (this_context (state_after (perform_all ops) s))) = n0 /\
     (phase_rank (phase q) <= phase_rank (phase q'))%nat /\
     (phase q' = VICTORY -> phase q = VICTORY)) \/
  (exists q',
     currentQuest (this_context (state_after (perform_all ops) s)) = None /\
     nth_error (completedQuests (this_context (state_after (perform_all ops) s))) n0 =
       Some q' /\
     phase q' = VICTORY /\
     existsb is_close ops = true).
Proof.
  revert s q. induction ops as [|op ops IH]; intros s q Hops Hq Hn.
  - left. exists q. repeat split; try assumption; [lia|tauto].
  - cbn [forallb] in Hops. apply andb_prop in Hops. destruct Hops as [Hop Hops].
    rewrite state_after_cons. cbn [existsb].
    destruct (lifetime_step_open op s q n0 Hop Hq Hn)
      as [(q1 & Hq1 & Hn1 & Hle1 & Hv1)|(q1 & Hnone1 & Hnth1 & Hv1 & Hclose)].
    + destruct (IH _ q1 Hops Hq1 Hn1)
        as [(q2 & Hq2 & Hn2 & Hle2 & Hv2)|(q2 & Hnone2 & Hnth2 & Hv2 & Hclose)].
      * left. exists q2. repeat split; try assumption; [lia|tauto].
      * right. exists q2. repeat split; try assumption.
        rewrite Hclose. apply orb_true_r.
    + right. exists q1.
      rewrite (lifetime_run_closed ops _ Hops Hnone1).
      repeat split; try assumption. now rewrite Hclose.
Qed.

End Lifetime.

(** C6.  Over any sequence of the operations of a quest's lifetime
    (findings, guidance, status, closing), the phase of the quest, read
    in the current-quest slot while it is open and in the history once it
    is closed, never decreases along PREPARATION, INVESTIGATION, BATTLE,
    VICTORY: the phase after a prefix of the sequence is at most the
    phase after the whole of it.  And the quest is in VICTORY only if
    [complete_quest] is among the operations (or it started there). *)
Theorem phase_never_decreases (s : State) (q : Quest) (ops1 ops2 : list Operation) :
  currentQuest (this_context s) = Some q ->
  forallb in_lifetime (ops1 ++ ops2) = true ->
  exists p1 p2,
    tracked_phase (List.length (completedQuests (this_context s)))
      (context_after (perform_all ops1) s) = Some p1 /\
    tracked_phase (List.length (completedQuests (this_context s)))
      (context_after (perform_all (ops1 ++ ops2)) s) = Some p2 /\
    (phase_rank (phase q) <= phase_rank p1 <= phase_rank p2)%nat /\
    (p2 = VICTORY -> phase q = VICTORY \/ existsb is_close (ops1 ++ ops2) = true).
Proof.
  intros Hq Hops. rewrite forallb_app in Hops.
  apply andb_prop in Hops. destruct Hops as [Hops1 Hops2].
  unfold context_after. rewrite state_after_app, existsb_app.
  set (n0 := List.length (completedQuests (this_context s))).
  destruct (lifetime_run_open ops1 s q n0 Hops1 Hq eq_refl)
    as [(q1 & Hq1 & Hn1 & Hle1 & Hv1)|(q1 & Hnone1 & Hnth1 & Hv1 & Hclose1)].
  - destruct (lifetime_run_open ops2 _ q1 n0 Hops2 Hq1 Hn1)
      as [(q2 & Hq2 & Hn2 & Hle2 & Hv2)|(q2 & Hnone2 & Hnth2 & Hv2 & Hclose2)].
    + exists (phase q1), (phase q2). unfold tracked_phase. rewrite Hq1, Hq2.
      repeat split; try assumption. intros Hv. left. tauto.
    + exists (phase q1), VICTORY. unfold tracked_phase. rewrite Hq1, Hnone2, Hnth2.
      cbn [option_map]. rewrite Hv2.
      repeat split; try assumption; [apply phase_rank_bound|].
      intros _. right. rewrite Hclose2. apply orb_true_r.
  - exists VICTORY, VICTORY. unfold tracked_phase.
    rewrite (lifetime_run_closed ops2 _ Hops2 Hnone1), Hnone1, Hnth1.
    cbn [option_map]. rewrite Hv1.
    repeat split; try reflexivity; [apply phase_rank_bound|].
    intros _. right. now rewrite Hclose1.
Qed.

Lemma phase_never_decreases_witness :
  currentQuest (this_context (engine_in_phase PREPARATION)) =
    Some (sample_quest PREPARATION) /\
  exists p1 p2,
    tracked_phase 0
      (context_after
         (perform_all
            [continue_quest "a" None; seek_wisdom "test"; continue_quest "b" None;
             get_quest_status; continue_quest "c" (Some breakthrough)])
         (engine_in_phase PREPARATION)) = Some p1 /\
    tracked_phase 0
      (context_after
         (perform_all
            ([continue_quest "a" None; seek_wisdom "test"; continue_quest "b" None;
              get_quest_status; continue_quest "c" (Some breakthrough)] ++
             [continue_quest "d" None; complete_quest None; continue_quest "e" None]))
         (engine_in_phase PREPARATION)) = Some p2 /\
    (phase_rank p1 <= phase_rank p2)%nat.
Proof.
  split; [reflexivity|].
  destruct (phase_never_decreases (engine_in_phase PREPARATION) (sample_quest PREPARATION)
              [continue_quest "a" None; seek_wisdom "test"; continue_quest "b" None;
               get_quest_status; continue_quest "c" (Some breakthrough)]
              [continue_quest "d" None; complete_quest None; continue_quest "e" None]
              eq_refl eq_refl)
    as (p1 & p2 & H1 & H2 & Hle & _).
  exists p1, p2. split; [exact H1|]. split; [exact H2|]. lia.
Defined.

(** ** What every reachable state satisfies *)

Section Reachable.

Lemma sum_experience_app (l1 l2 : list Quest) :
  sum_experience (l1 ++ l2) = sum_experience l1 + sum_experience l2.
Proof.
  unfold sum_experience.
  induction l1 as [|q l1 IH]; cbn [app fold_right]; [reflexivity|].
  rewrite IH. lia.
Qed.

(** One more finding keeps the shape of an open quest. *)
Lemma continue_keeps_shape (f : string) (g : option Significance) (s : State) (q : Quest) :
  currentQuest (this_context s) = Some q ->
  open_quest_shape q ->
  exists q',
    this_context (state_after (continueQuest f g) s) =
      with_currentQuest (Some q') (this_context s) /\
    open_quest_shape q'.
Proof.
  intros Hq [Hmap Hcount].
  destruct (continueQuest_step f g s q Hq)
    as (now & q' & C & Hfind & _ & _ & Hphase & Hmile).
  exists q'. split; [exact C|].
  unfold phase_after_update in Hphase.
  cbn [phase findings push_finding] in Hphase. rewrite <- Hfind in Hphase.
  assert (Hlen : List.length (findings q') = S (List.length (findings q)))
    by (rewrite Hfind, length_app; cbn; lia).
  pose proof (breakthrough_scan q') as Hscan.
  unfold open_quest_shape.
  destruct (phase q) eqn:Hp; cbn [phase_rank firstn] in Hmap.
  - destruct (3 <=? List.length (findings q'))%nat eqn:Hthree.
    + apply Nat.leb_le in Hthree.
      destruct Hmile as [[Hsame _]|[_ (m & Hm & Hmp)]]; [congruence|].
      rewrite Hphase, Hm, map_app, Hmap. cbn [map]. rewrite Hmp, Hphase. cbn.
      split; [reflexivity|]. split; [lia|]. intros Hfour. lia.
    + apply Nat.leb_gt in Hthree.
      destruct Hmile as [[_ Hm]|[Hmoved _]]; [|congruence].
      rewrite Hphase, Hm, Hmap. cbn. split; [reflexivity|lia].
  - destruct Hcount as [Hbounds _].
    destruct (existsb _ (findings q') || (6 <=? List.length (findings q'))%nat)
      eqn:Hgo.
    + destruct Hmile as [[Hsame _]|[_ (m & Hm & Hmp)]]; [congruence|].
      rewrite Hphase, Hm, map_app, Hmap. cbn [map]. rewrite Hmp, Hphase. cbn.
      split; [reflexivity|lia].
    + apply orb_false_elim in Hgo. destruct Hgo as [Hnone Hsix].
      apply Nat.leb_gt in Hsix.
      destruct Hmile as [[_ Hm]|[Hmoved _]]; [|congruence].
      rewrite Hphase, Hm, Hmap. cbn. split; [reflexivity|].
      split; [lia|]. intros _ Hb. apply Hscan in Hb. congruence.
  - destruct Hmile as [[_ Hm]|[Hmoved _]]; [|congruence].
    rewrite Hphase, Hm, Hmap. cbn. split; [reflexivity|lia].
  - destruct Hcount.
Qed.

(** The quest archived by [completeQuest] has the shape of an archived
    quest. *)
Lemma closing_gives_archived_shape (q : Quest) (m : QuestMilestone) :
  open_quest_shape q ->
  milestone_title m = "Quest Completed!" ->
  milestone_phase m = VICTORY ->
  archived_shape (push_milestone m (with_phase VICTORY q)).
Proof.
  intros [Hmap Hcount] Htitle Hphase. split; [reflexivity|].
  exists (milestones q), m. cbn [milestones push_milestone with_phase].
  split; [reflexivity|]. split; [exact Htitle|]. split; [exact Hphase|].
  assert (Hlen : List.length (milestones q) = phase_rank (phase q)).
  { rewrite <- (length_map milestone_phase), Hmap.
    destruct (phase q); [reflexivity|reflexivity|reflexivity|destruct Hcount]. }
  rewrite Hlen. split; [|exact Hmap].
  destruct (phase q); cbn; lia || destruct Hcount.
Qed.

Lemma perform_keeps_invariant (op : Operation) (s : State) :
  engine_invariant (this_context s) ->
  engine_invariant (this_context (state_after (perform op) s)).
Proof.
  intros (Hhero & Hopen & Harchived). rewrite state_after_perform.
  destruct op as [d t u|f g| |h|summary].
  - destruct (startQuest_run d t u s)
      as (q & r & s' & E & C & Hp & Hf & Hm & _).
    unfold state_after. rewrite E. cbn [snd]. rewrite C.
    split; [exact Hhero|]. split; [|exact Harchived].
    intros q0 Hq0. cbn in Hq0. injection Hq0 as <-.
    unfold open_quest_shape. rewrite Hp, Hm, Hf. cbn. split; [reflexivity|lia].
  - destruct (currentQuest (this_context s)) as [q|] eqn:Hq.
    + destruct (continue_keeps_shape f g s q Hq (Hopen q eq_refl)) as (q' & C & Hshape).
      rewrite C. split; [exact Hhero|]. split; [|exact Harchived].
      intros q0 Hq0. cbn in Hq0. now injection Hq0 as <-.
    + unfold state_after. rewrite (continueQuest_idle f g s Hq). cbn [snd].
      split; [exact Hhero|]. split; [|exact Harchived].
      intros q0 Hq0. congruence.
  - rewrite (keeps_context_after _ s getQuestStatus_keeps).
    exact (conj Hhero (conj Hopen Harchived)).
  - rewrite (keeps_context_after _ s (seekWisdom_keeps h)).
    exact (conj Hhero (conj Hopen Harchived)).
  - destruct (currentQuest (this_context s)) as [q|] eqn:Hq.
    + destruct (completeQuest_run summary s q Hq) as (now & r & s' & E & C).
      unfold state_after. rewrite E. cbn [snd]. rewrite C.
      destruct Hhero as [Hsum Hlevel].
      split; [|split].
      * split; cbn [totalExperience completedQuests heroLevel]; [|reflexivity].
        rewrite sum_experience_app, Hsum. cbn. lia.
      * intros q0 Hq0. discriminate Hq0.
      * cbn [completedQuests]. apply Forall_app. split; [exact Harchived|].
        constructor; [|constructor].
        now apply closing_gives_archived_shape; [apply Hopen| |].
    + unfold state_after. rewrite (completeQuest_idle summary s Hq). cbn [snd].
      split; [exact Hhero|]. split; [|exact Harchived].
      intros q0 Hq0. congruence.
Qed.

Lemma perform_all_keeps_invariant (ops : list Operation) (s : State) :
  engine_invariant (this_context s) ->
  engine_invariant (this_context (state_after (perform_all ops) s)).
Proof.
  revert s. induction ops as [|op ops IH]; intros s Hinv; [exact Hinv|].
  rewrite state_after_cons. apply IH. now apply perform_keeps_invariant.
Qed.

Lemma constructor_invariant : engine_invariant constructor.
Proof.
  split; [split; reflexivity|]. split; [discriminate|constructor].
Qed.

End Reachable.

Section Progress.

Lemma baseXP_min (severity : BugSeverity) : 10 <= baseXP severity.
Proof. destruct severity; cbn; lia. Qed.

Lemma closed_quest_experience (q : Quest) (m : QuestMilestone) :
  15 <= calculateExperience (push_milestone m (with_phase VICTORY q)).
Proof.
  unfold calculateExperience. cbn [bugSeverity findings milestones push_milestone with_phase].
  rewrite length_app. cbn [List.length].
  pose proof (baseXP_min (bugSeverity q)). lia.
Qed.

Lemma archived_experience (q : Quest) : archived_shape q -> 15 <= calculateExperience q.
Proof.
  intros (_ & passed & m & Hm & _). unfold calculateExperience.
  rewrite Hm, length_app. cbn [List.length].
  pose proof (baseXP_min (bugSeverity q)). lia.
Qed.

Lemma sum_experience_min (l : list Quest) :
  Forall (fun q => 15 <= calculateExperience q) l ->
  15 * Z.of_nat (List.length l) <= sum_experience l.
Proof.
  unfold sum_experience.
  induction 1 as [|q l Hq _ IH]; cbn [fold_right List.length]; lia.
Qed.

(** What one operation adds to the hero's progress. *)
Lemma perform_progress (op : Operation) (s : State) :
  exists added,
    completedQuests (this_context (state_after (perform op) s)) =
      completedQuests (this_context s) ++ added /\
    totalExperience (this_context (state_after (perform op) s)) =
      totalExperience (this_context s) + sum_experience added /\
    Forall (fun q => 15 <= calculateExperience q) added /\
    (List.length added <= List.length (filter is_close [op]))%nat /\
    ((added = [] /\
      heroLevel (this_context (state_after (perform op) s)) = heroLevel (this_context s)) \/
     heroLevel (this_context (state_after (perform op) s)) =
       totalExperience (this_context (state_after (perform op) s)) / 100 + 1).
Proof.
  assert (Hsame : forall c,
             this_context (state_after (perform op) s) = c ->
             completedQuests c = completedQuests (this_context s) ->
             totalExperience c = totalExperience (this_context s) ->
             heroLevel c = heroLevel (this_context s) ->
             exists added,
               completedQuests (this_context (state_after (perform op) s)) =
                 completedQuests (this_context s) ++ added /\
               totalExperience (this_context (state_after (perform op) s)) =
                 totalExperience (this_context s) + sum_experience added /\
               Forall (fun q => 15 <= calculateExperience q) added /\
               (List.length added <= List.length (filter is_close [op]))%nat /\
               ((added = [] /\
                 heroLevel (this_context (state_after (perform op) s)) =
                   heroLevel (this_context s)) \/
                heroLevel (this_context (state_after (perform op) s)) =
                  totalExperience (this_context (state_after (perform op) s)) / 100 + 1)).
  { intros c -> Hc Hx Hl. exists []. rewrite app_nil_r. cbn [sum_experience fold_right].
    repeat split; try assumption; [lia|constructor|cbn; lia|]. left. now split. }
  pose proof (state_after_perform op s) as Hperform.
  destruct op as [d t u|f g| |h|summary].
  - destruct (startQuest_run d t u s) as (q & r & s' & E & C & _).
    apply (Hsame (with_currentQuest (Some q) (this_context s))); try reflexivity.
    rewrite Hperform. unfold state_after. now rewrite E.
  - destruct (currentQuest (this_context s)) as [q|] eqn:Hq.
    + destruct (continueQuest_step f g s q Hq) as (now & q' & C & _).
      apply (Hsame (with_currentQuest (Some q') (this_context s))); try reflexivity.
      now rewrite Hperform.
    + apply (Hsame (this_context s)); try reflexivity.
      rewrite Hperform. unfold state_after. now rewrite (continueQuest_idle f g s Hq).
  - apply (Hsame (this_context s)); try reflexivity.
    rewrite Hperform. apply keeps_context_after, getQuestStatus_keeps.
  - apply (Hsame (this_context s)); try reflexivity.
    rewrite Hperform. apply keeps_context_after, seekWisdom_keeps.
  - destruct (currentQuest (this_context s)) as [q|] eqn:Hq.
    + clear Hsame.
      destruct (completeQuest_run summary s q Hq) as (now & r & s' & E & C).
      rewrite Hperform. unfold state_after. rewrite E. cbn [snd]. rewrite C.
      cbn [completedQuests totalExperience heroLevel].
      eexists [_]. split; [reflexivity|].
      split; [cbn [sum_experience fold_right]; lia|].
      split; [constructor; [apply closed_quest_experience|constructor]|].
      split; [cbn; lia|]. now right.
    + apply (Hsame (this_context s)); try reflexivity.
      rewrite Hperform. unfold state_after. now rewrite (completeQuest_idle summary s Hq).
Qed.

Lemma perform_all_progress (ops : list Operation) (s : State) :
  exists added,
    completedQuests (this_context (state_after (perform_all ops) s)) =
      completedQuests (this_context s) ++ added /\
    totalExperience (this_context (state_after (perform_all ops) s)) =
      totalExperience (this_context s) + sum_experience added /\
    Forall (fun q => 15 <= calculateExperience q) added /\
    (List.length added <= List.length (filter is_close ops))%nat /\
    ((added = [] /\
      heroLevel (this_context (state_after (perform_all ops) s)) =
        heroLevel (this_context s)) \/
     heroLevel (this_context (state_after (perform_all ops) s)) =
       totalExperience (this_context (state_after (perform_all ops) s)) / 100 + 1).
Proof.
  revert s. induction ops as [|op ops IH]; intros s.
  - change (state_after (perform_all []) s) with s.
    exists []. rewrite app_nil_r. cbn [sum_experience fold_right].
    repeat split; [lia|constructor|cbn; lia|]. left. now split.
  - rewrite state_after_cons.
    destruct (perform_progress op s) as (a1 & Hc1 & Hx1 & Hf1 & Hn1 & Hl1).
    destruct (IH (state_after (perform op) s)) as (a2 & Hc2 & Hx2 & Hf2 & Hn2 & Hl2).
    exists (a1 ++ a2). rewrite Hc2, Hc1, Hx2, Hx1, sum_experience_app, app_assoc.
    split; [reflexivity|]. split; [lia|]. split; [now apply Forall_app|].
    split.
    + change (op :: ops) with ([op] ++ ops). rewrite filter_app, !length_app. lia.
    + destruct Hl2 as [[-> Hl2]|Hl2].
      * rewrite app_nil_r. rewrite Hl2.
        destruct Hl1 as [[-> Hl1]|Hl1]; [left; now split|right].
        rewrite Hl1, Hx1. cbn [sum_experience fold_right]. f_equal. f_equal. lia.
      * right. rewrite Hl2, Hx2, Hx1. reflexivity.
Qed.

End Progress.

(** X1.  In every state a freshly built engine can reach, by any
    sequence of the five operations, the experience is the sum of the
    experience of the archived quests, the level is
    [floor (experience / 100) + 1], and each archived quest has brought
    at least 15 points. *)
Theorem hero_progress_consistent (ops : list Operation) (clock : list Z) (entropy : list Q) :
  let c := context_after (perform_all ops) (new_engine clock entropy) in
  totalExperience c = sum_experience (completedQuests c) /\
  heroLevel c = totalExperience c / 100 + 1 /\
  15 * Z.of_nat (List.length (completedQuests c)) <= totalExperience c /\
  1 <= heroLevel c.
Proof.
  cbv zeta. unfold context_after.
  destruct (perform_all_keeps_invariant ops (new_engine clock entropy) constructor_invariant)
    as ([Hsum Hlevel] & _ & Harchived).
  assert (Hmin : 15 * Z.of_nat (List.length
                    (completedQuests
                       (this_context
                          (state_after (perform_all ops) (new_engine clock entropy))))) <=
                 totalExperience
                   (this_context (state_after (perform_all ops) (new_engine clock entropy)))).
  { rewrite Hsum. apply sum_experience_min.
    eapply Forall_impl; [|exact Harchived]. apply archived_experience. }
  repeat split; try assumption.
  rewrite Hlevel.
  assert (0 <= totalExperience
                 (this_context (state_after (perform_all ops) (new_engine clock entropy))) / 100)
    by (apply Z.div_pos; lia).
  lia.
Qed.

(** X2.  In every state a freshly built engine can reach, the open quest
    is never in VICTORY, has exactly one milestone per phase passed
    (INVESTIGATION, then BATTLE), and its findings fit its phase: at most
    2 in PREPARATION, 3 to 5 in INVESTIGATION (with no breakthrough among
    them from the fourth on), at least 4 in BATTLE; so a quest with six
    findings is in BATTLE. *)
Theorem open_quest_well_formed (ops : list Operation) (clock : list Z) (entropy : list Q)
    (q : Quest) :
  currentQuest (context_after (perform_all ops) (new_engine clock entropy)) = Some q ->
  open_quest_shape q /\
  phase q <> VICTORY /\
  List.length (milestones q) = phase_rank (phase q) /\
  ((6 <= List.length (findings q))%nat -> phase q = BATTLE) /\
  ((List.length (findings q) <= 2)%nat <-> phase q = PREPARATION).
Proof.
  intros Hq.
  destruct (perform_all_keeps_invariant ops (new_engine clock entropy) constructor_invariant)
    as (_ & Hopen & _).
  pose proof (Hopen q Hq) as Hshape. split; [exact Hshape|].
  destruct Hshape as [Hmap Hcount].
  assert (Hlen : List.length (milestones q) = phase_rank (phase q)).
  { rewrite <- (length_map milestone_phase), Hmap.
    destruct (phase q); [reflexivity|reflexivity|reflexivity|destruct Hcount]. }
  split; [|split; [exact Hlen|]];
    destruct (phase q); try destruct Hcount; (split || idtac);
    try congruence; try lia; try (intros; lia); try (split; intros; (lia || congruence)).
Qed.

Lemma open_quest_well_formed_witness :
  exists q,
    currentQuest
      (context_after
         (perform_all
            [start_quest "typo in a label" None None; continue_quest "a" None;
             continue_quest "b" None; continue_quest "c" None; continue_quest "d" None])
         (new_engine [] [])) = Some q /\
    List.length (milestones q) = phase_rank (phase q).
Proof.
  eexists. split; [reflexivity|].
  apply (open_quest_well_formed
           [start_quest "typo in a label" None None; continue_quest "a" None;
            continue_quest "b" None; continue_quest "c" None; continue_quest "d" None]
           [] [] _ eq_refl).
Defined.

(** X3.  In every state a freshly built engine can reach, every quest of
    the history is in phase VICTORY and its last milestone is the
    completion milestone, titled "Quest Completed!" and in phase VICTORY,
    after at most the two phase milestones. *)
Theorem archived_quests_well_formed (ops : list Operation) (clock : list Z)
    (entropy : list Q) :
  Forall
    (fun q =>
       archived_shape q /\
       (1 <= List.length (milestones q) <= 3)%nat)
    (completedQuests (context_after (perform_all ops) (new_engine clock entropy))).
Proof.
  destruct (perform_all_keeps_invariant ops (new_engine clock entropy) constructor_invariant)
    as (_ & _ & Harchived).
  eapply Forall_impl; [|exact Harchived].
  intros q Hq. split; [exact Hq|].
  destruct Hq as (_ & passed & m & Hm & _ & _ & Hle & _).
  rewrite Hm, length_app. cbn [List.length]. lia.
Qed.

(** X4.  From any state, any sequence of operations only appends to the
    history, one quest at most per [complete_quest]; each quest appended
    brings at least 15 points of experience, and the experience grows by
    exactly the experience of the quests appended; and a level that
    agrees with the experience never goes down. *)
Theorem progress_only_grows (ops : list Operation) (s : State) :
  exists added,
    completedQuests (context_after (perform_all ops) s) =
      completedQuests (this_context s) ++ added /\
    (List.length added <= List.length (filter is_close ops))%nat /\
    Forall (fun q => 15 <= calculateExperience q) added /\
    totalExperience (context_after (perform_all ops) s) =
      totalExperience (this_context s) + sum_experience added /\
    15 * Z.of_nat (List.length added) <= sum_experience added /\
    totalExperience (this_context s) <= totalExperience (context_after (perform_all ops) s) /\
    (heroLevel (this_context s) = totalExperience (this_context s) / 100 + 1 ->
     heroLevel (this_context s) <= heroLevel (context_after (perform_all ops) s)).
Proof.
  destruct (perform_all_progress ops s) as (added & Hc & Hx & Hf & Hn & Hl).
  exists added. unfold context_after.
  pose proof (sum_experience_min added Hf) as Hmin.
  split; [exact Hc|]. split; [exact Hn|]. split; [exact Hf|]. split; [exact Hx|].
  split; [exact Hmin|]. split; [lia|].
  intros Hlevel. destruct Hl as [[_ Hl]|Hl]; [lia|].
  rewrite Hl, Hlevel, Hx.
  apply Z.add_le_mono_r, Z.div_le_mono; lia.
Qed.

Lemma progress_only_grows_witness :
  heroLevel (this_context fresh_engine) =
    totalExperience (this_context fresh_engine) / 100 + 1 /\
  heroLevel (this_context fresh_engine) <=
    heroLevel
      (context_after
         (perform_all [start_quest "the site is down" None None; complete_quest None])
         fresh_engine).
Proof.
  split; [reflexivity|].
  destruct (progress_only_grows
              [start_quest "the site is down" None None; complete_quest None] fresh_engine)
    as (added & _ & _ & _ & _ & _ & _ & Hlevel).
  apply Hlevel. reflexivity.
Defined.

(** ** The findings of a quest *)

Section Findings.

Ltac step K :=
  match goal with
  | |- context [bind ?m ?k ?s] =>
      let a := fresh "a" in
      let s1 := fresh "s" in
      let E := fresh "E" in
      let C := fresh "C" in
      destruct ((K : keeps_context m) s) as (a & s1 & E & C);
      rewrite (bind_run m k s s1 a E)
  end.

(** [updateQuestPhase] writes the phase and the milestones only. *)
Lemma updateQuestPhase_identity (q : Quest) (s : State) :
  exists q' s',
    updateQuestPhase q s = (Normal q', s') /\
    this_context s' = this_context s /\
    quest_id q' = quest_id q /\ title q' = title q /\ description q' = description q /\
    bugSeverity q' = bugSeverity q /\ questType q' = questType q /\
    startedAt q' = startedAt q /\ techStack q' = techStack q /\
    findings q' = findings q.
Proof.
  unfold updateQuestPhase.
  repeat match goal with
         | |- context [if ?c then _ else _] => destruct c
         end;
    try (exists q, s; now repeat split);
    match goal with
    | |- context [addMilestone ?x ?t ?d s] =>
        destruct (addMilestone_run x t d s) as (now & s1 & E1 & C1)
    end;
    eexists _, s1; (split; [exact E1|]); (split; [exact C1|]); now repeat split.
Qed.

Lemma continueQuest_identity (f : string) (g : option Significance) (s : State) (q : Quest) :
  currentQuest (this_context s) = Some q ->
  exists now q',
    this_context (state_after (continueQuest f g) s) =
      with_currentQuest (Some q') (this_context s) /\
    findings q' =
      findings q ++
        [{| finding_timestamp := now; finding := f; significance := recorded g |}] /\
    quest_id q' = quest_id q /\ title q' = title q /\ description q' = description q /\
    bugSeverity q' = bugSeverity q /\ questType q' = questType q /\
    startedAt q' = startedAt q /\ techStack q' = techStack q.
Proof.
  intros Hq. unfold state_after, continueQuest. cbv zeta.
  rewrite (bind_run _ _ _ _ _ (read_context_run s)). rewrite Hq.
  step Date_now_keeps.
  match goal with
  | |- context [updateQuestPhase ?x] =>
      destruct (updateQuestPhase_identity x s0)
        as (q' & s1 & E1 & C1 & Hid & Htitle & Hdesc & Hsev & Htype & Hstart & Hstack & Hfind)
  end.
  rewrite (bind_run _ _ _ _ _ E1).
  rewrite (bind_run _ _ _ _ _ (modify_context_run _ _)).
  match goal with
  | |- context [bind (if ?c then _ else _) _ _] =>
      assert (Hack : keeps_context
                       (if c then getMilestoneAcknowledgment
                        else ret "Interesting discovery! This information helps build our understanding."))
        by (destruct c; unfold getMilestoneAcknowledgment; auto with engine)
  end.
  step Hack.
  step (getRandomResponse_keeps (MENTOR_RESPONSES.encouragements (bugSeverity q'))).
  exists a, q'. cbn [snd ret]. rewrite C2, C0. cbn [this_context]. rewrite C1, C.
  repeat split; assumption.
Qed.

End Findings.

(** X5.  A run of [continue_quest] calls on an open quest keeps it open
    and appends the findings in the order of the calls, each with its
    text and its significance (moderate when none is given), whatever
    phase changes happen on the way; the quest's id, title, description,
    severity, category, start time and tech stack stay as they were, and
    so does the hero's progress. *)
Theorem findings_are_logged (calls : list (string * option Significance))
    (s : State) (q : Quest) :
  currentQuest (this_context s) = Some q ->
  exists q',
    currentQuest (context_after (perform_all (record_all calls)) s) = Some q' /\
    map (fun x => (finding x, significance x)) (findings q') =
      map (fun x => (finding x, significance x)) (findings q) ++
      map (fun c => (fst c, recorded (snd c))) calls /\
    quest_id q' = quest_id q /\ title q' = title q /\ description q' = description q /\
    bugSeverity q' = bugSeverity q /\ questType q' = questType q /\
    startedAt q' = startedAt q /\ techStack q' = techStack q /\
    completedQuests (context_after (perform_all (record_all calls)) s) =
      completedQuests (this_context s) /\
    totalExperience (context_after (perform_all (record_all calls)) s) =
      totalExperience (this_context s) /\
    heroLevel (context_after (perform_all (record_all calls)) s) =
      heroLevel (this_context s).
Proof.
  unfold context_after. revert s q.
  induction calls as [|[f g] calls IH]; intros s q Hq.
  - exists q. change (state_after (perform_all (record_all [])) s) with s.
    rewrite app_nil_r. now repeat split.
  - cbn [record_all map fst snd]. rewrite state_after_cons, state_after_perform_continue.
    destruct (continueQuest_identity f g s q Hq)
      as (now & q1 & C1 & Hfind & Hid & Htitle & Hdesc & Hsev & Htype & Hstart & Hstack).
    assert (Hq1 : currentQuest (this_context (state_after (continueQuest f g) s)) = Some q1)
      by now rewrite C1.
    destruct (IH _ q1 Hq1)
      as (q' & Hq' & Hlog & Hid' & Htitle' & Hdesc' & Hsev' & Htype' & Hstart' & Hstack' &
          Hc & Hx & Hl).
    exists q'. fold (record_all calls). rewrite Hc, Hx, Hl, C1.
    split; [exact Hq'|].
    split; [rewrite Hlog, Hfind, map_app, <- app_assoc; reflexivity|].
    repeat split; congruence.
Qed.

Lemma findings_are_logged_witness :
  exists q',
    currentQuest
      (context_after
         (perform_all
            (record_all [("a", None); ("b", Some breakthrough); ("c", Some minor);
                         ("d", None)]))
         (engine_in_phase PREPARATION)) = Some q' /\
    map (fun x => (finding x, significance x)) (findings q') =
      [("a", moderate); ("b", breakthrough); ("c", minor); ("d", moderate)].
Proof.
  destruct (findings_are_logged
              [("a", None); ("b", Some breakthrough); ("c", Some minor); ("d", None)]
              (engine_in_phase PREPARATION) (sample_quest PREPARATION) eq_refl)
    as (q' & Hq' & Hlog & _).
  exists q'. split; [exact Hq'|exact Hlog].
Defined.

(** ** The replies *)

Section Replies.

Ltac step K :=
  match goal with
  | |- context [bind ?m ?k ?s] =>
      let a := fresh "a" in
      let s1 := fresh "s" in
      let E := fresh "E" in
      let C := fresh "C" in
      destruct ((K : keeps_context m) s) as (a & s1 & E & C);
      rewrite (bind_run m k s s1 a E)
  end.

(** Every entry of the question table has at least three questions. *)
Lemma three_questions (t : QuestType) (p : QuestPhase) :
  List.length (Js.slice_to 3 (getQuestQuestions t p)) = 3%nat.
Proof. destruct t, p; reflexivity. Qed.

Lemma three_suggestions (q : Quest) : List.length (getNextSuggestions q) = 3%nat.
Proof. unfold getNextSuggestions. destruct (phase q); reflexivity. Qed.

Lemma startQuest_reply (d : string) (t : option (list string)) (u : option string)
    (s : State) :
  exists q r s',
    startQuest d t u s = (Normal (q, r), s') /\
    List.length (questions r) = 3%nat /\ List.length (nextSuggestions r) = 3%nat.
Proof.
  unfold startQuest. cbv zeta.
  step generateQuestId_keeps. step Date_now_keeps.
  rewrite (bind_run _ _ _ _ _ (modify_context_run _ _)).
  step (getRandomResponse_keeps (MENTOR_RESPONSES.encouragements (classifyBugSeverity d u))).
  step (getRandomResponse_keeps MENTOR_RESPONSES.greetings).
  eexists _, _, _. split; [reflexivity|]. cbn [questions nextSuggestions].
  split; [apply three_questions|reflexivity].
Qed.

Lemma continueQuest_reply (f : string) (g : option Significance) (s : State) (q : Quest) :
  currentQuest (this_context s) = Some q ->
  exists r s',
    continueQuest f g s = (Normal r, s') /\
    List.length (questions r) = 3%nat /\ List.length (nextSuggestions r) = 3%nat.
Proof.
  intros Hq. unfold continueQuest. cbv zeta.
  rewrite (bind_run _ _ _ _ _ (read_context_run s)). rewrite Hq.
  step Date_now_keeps.
  match goal with
  | |- context [updateQuestPhase ?x] =>
      destruct (updateQuestPhase_run x s0) as (q' & s1 & E1 & _)
  end.
  rewrite (bind_run _ _ _ _ _ E1).
  rewrite (bind_run _ _ _ _ _ (modify_context_run _ _)).
  match goal with
  | |- context [bind (if ?c then _ else _) _ _] =>
      assert (Hack : keeps_context
                       (if c then getMilestoneAcknowledgment
                        else ret "Interesting discovery! This information helps build our understanding."))
        by (destruct c; unfold getMilestoneAcknowledgment; auto with engine)
  end.
  step Hack.
  step (getRandomResponse_keeps (MENTOR_RESPONSES.encouragements (bugSeverity q'))).
  eexists _, _. split; [reflexivity|]. cbn [questions nextSuggestions].
  split; [apply three_questions|apply three_suggestions].
Qed.

Lemma seekWisdom_reply (h : string) (s : State) (q : Quest) :
  currentQuest (this_context s) = Some q ->
  exists r s',
    seekWisdom h s = (Normal r, s') /\
    (3 <= List.length (questions r) <= 4)%nat /\ List.length (nextSuggestions r) = 3%nat.
Proof.
  intros Hq. unfold seekWisdom. cbv zeta.
  rewrite (bind_run _ _ _ _ _ (read_context_run s)). rewrite Hq.
  match goal with
  | |- context [let '(_, _) := ?p in _] => destruct p as [msg qs] eqn:Hbucket
  end.
  step (getRandomResponse_keeps (MENTOR_RESPONSES.encouragements (bugSeverity q))).
  eexists _, _. split; [reflexivity|]. cbn [questions nextSuggestions].
  split; [|apply three_suggestions].
  pose proof (three_questions (questType q) (phase q)) as Hthree.
  repeat match type of Hbucket with
         | context [if ?c then _ else _] => destruct c
         end;
    injection Hbucket as _ <-;
    first [ cbn [List.length]; lia
          | change (3 <= List.length
                           (Js.slice_to 3 (getQuestQuestions (questType q) (phase q))) <= 4)%nat;
            lia ].
Qed.

Lemma completeQuest_reply (summary : option string) (s : State) (q : Quest) :
  currentQuest (this_context s) = Some q ->
  exists r s',
    completeQuest summary s = (Normal r, s') /\
    List.length (questions r) = 3%nat /\ List.length (nextSuggestions r) = 3%nat.
Proof.
  intros Hq. unfold completeQuest. cbv zeta.
  rewrite (bind_run _ _ _ _ _ (read_context_run s)). rewrite Hq.
  step Date_now_keeps.
  rewrite (bind_run _ _ _ _ _ (modify_context_run _ _)).
  rewrite (bind_run _ _ _ _ _ (read_context_run _)).
  rewrite (bind_run _ _ _ _ _ (modify_context_run _ _)).
  rewrite (bind_run _ _ _ _ _ (modify_context_run _ _)).
  rewrite (bind_run _ _ _ _ _ (modify_context_run _ _)).
  step (getRandomResponse_keeps MENTOR_RESPONSES.victoryMessages).
  rewrite (bind_run _ _ _ _ _ (read_context_run _)).
  step Date_now_keeps.
  eexists _, _. split; [reflexivity|]. split; reflexivity.
Qed.

End Replies.

(** X6.  Every reply to an operation on an open quest carries questions
    and three suggestions: three questions from [startQuest],
    [continueQuest] and [completeQuest], three or four from
    [seekWisdom].  Without a quest the replies of the last three carry
    no question and one suggestion.  So an empty list of questions is
    the mark of the no-quest reply. *)
Theorem replies_have_questions (s : State) :
  (forall d t u,
     exists q r s',
       startQuest d t u s = (Normal (q, r), s') /\
       List.length (questions r) = 3%nat /\ List.length (nextSuggestions r) = 3%nat) /\
  (forall f g,
     exists r,
       result_of (continueQuest f g) s = Normal r /\
       (questions r = [] <-> currentQuest (this_context s) = None) /\
       List.length (questions r) =
         match currentQuest (this_context s) with Some _ => 3%nat | None => 0%nat end /\
       List.length (nextSuggestions r) =
         match currentQuest (this_context s) with Some _ => 3%nat | None => 1%nat end) /\
  (forall h,
     exists r,
       result_of (seekWisdom h) s = Normal r /\
       (questions r = [] <-> currentQuest (this_context s) = None) /\
       match currentQuest (this_context s) with
       | Some _ => (3 <= List.length (questions r) <= 4)%nat
       | None => questions r = []
       end /\
       List.length (nextSuggestions r) =
         match currentQuest (this_context s) with Some _ => 3%nat | None => 1%nat end) /\
  (forall summary,
     exists r,
       result_of (completeQuest summary) s = Normal r /\
       (questions r = [] <-> currentQuest (this_context s) = None) /\
       List.length (questions r) =
         match currentQuest (this_context s) with Some _ => 3%nat | None => 0%nat end /\
       List.length (nextSuggestions r) =
         match currentQuest (this_context s) with Some _ => 3%nat | None => 1%nat end).
Proof.
  unfold result_of.
  split; [intros d t u; apply startQuest_reply|].
  destruct (currentQuest (this_context s)) as [q|] eqn:Hq.
  - split; [|split].
    + intros f g. destruct (continueQuest_reply f g s q Hq) as (r & s' & E & Hn & Hm).
      exists r. rewrite E. split; [reflexivity|]. split; [|now split].
      split; [intros H0; rewrite H0 in Hn; discriminate|discriminate].
    + intros h. destruct (seekWisdom_reply h s q Hq) as (r & s' & E & Hn & Hm).
      exists r. rewrite E. split; [reflexivity|]. split; [|now split].
      split; [intros H0; rewrite H0 in Hn; cbn in Hn; lia|discriminate].
    + intros summary.
      destruct (completeQuest_reply summary s q Hq) as (r & s' & E & Hn & Hm).
      exists r. rewrite E. split; [reflexivity|]. split; [|now split].
      split; [intros H0; rewrite H0 in Hn; discriminate|discriminate].
  - split; [|split].
    + intros f g. eexists. rewrite (continueQuest_idle f g s Hq).
      split; [reflexivity|]. cbn [questions nextSuggestions]. now repeat split.
    + intros h. eexists. rewrite (seekWisdom_idle h s Hq).
      split; [reflexivity|]. cbn [questions nextSuggestions]. now repeat split.
    + intros summary. eexists. rewrite (completeQuest_idle summary s Hq).
      split; [reflexivity|]. cbn [questions nextSuggestions]. now repeat split.
Qed.

(** ** Random picks *)

Section Picks.

Lemma pick_in_range (r : Q) (n : nat) :
  (0 <= r)%Q -> (r < 1)%Q -> (0 < n)%nat ->
  (Z.to_nat (Qfloor (r * inject_Z (Z.of_nat n))) < n)%nat.
Proof.
  intros Hlow Hhigh Hn.
  assert (Hpos : (0 < inject_Z (Z.of_nat n))%Q).
  { change 0%Q with (inject_Z 0). rewrite <- Zlt_Qlt. lia. }
  assert (Hfloor0 : 0 <= Qfloor (r * inject_Z (Z.of_nat n))).
  { change 0 with (Qfloor (inject_Z 0)) at 1. apply Qfloor_resp_le.
    apply Qmult_le_0_compat; [exact Hlow|]. now apply Qlt_le_weak. }
  assert (Hfloor1 : Qfloor (r * inject_Z (Z.of_nat n)) < Z.of_nat n).
  { rewrite Zlt_Qlt.
    apply Qle_lt_trans with (r * inject_Z (Z.of_nat n))%Q; [apply Qfloor_le|].
    rewrite <- (Qmult_1_l (inject_Z (Z.of_nat n))) at 2.
    now apply Qmult_lt_compat_r. }
  lia.
Qed.

End Picks.

(** X7.  On a non-empty pool and a draw in [0, 1), [getRandomResponse]
    returns a member of the pool (never the undefined read past its
    end), uses up exactly that draw and touches nothing else; and every
    pool of the response table is non-empty. *)
Theorem getRandomResponse_picks_member :
  (forall responses r later s,
     entropy s = r :: later ->
     (0 <= r)%Q -> (r < 1)%Q ->
     responses <> [] ->
     exists x s',
       getRandomResponse responses s = (Normal x, s') /\
       In x responses /\
       entropy s' = later /\ clock s' = clock s /\ this_context s' = this_context s) /\
  (forall severity, MENTOR_RESPONSES.encouragements severity <> []) /\
  MENTOR_RESPONSES.greetings <> [] /\
  MENTOR_RESPONSES.milestoneAcknowledgments <> [] /\
  MENTOR_RESPONSES.victoryMessages <> [].
Proof.
  split; [|split; [intros []; discriminate|repeat split; discriminate]].
  intros responses r later s Hentropy Hlow Hhigh Hpool.
  unfold getRandomResponse, bind, Math_random, ret. rewrite Hentropy.
  eexists _, _. split; [reflexivity|]. split; [|now repeat split].
  apply nth_In. apply pick_in_range; try assumption.
  destruct responses; [contradiction|cbn; lia].
Qed.

Lemma getRandomResponse_picks_member_witness :
  exists x s',
    getRandomResponse (MENTOR_RESPONSES.encouragements TROLL)
      {| this_context := constructor; clock := []; entropy := [3 # 4] |} = (Normal x, s') /\
    In x (MENTOR_RESPONSES.encouragements TROLL).
Proof.
  destruct (proj1 getRandomResponse_picks_member (MENTOR_RESPONSES.encouragements TROLL)
              (3 # 4) [] {| this_context := constructor; clock := []; entropy := [3 # 4] |}
              eq_refl)
    as (x & s' & E & Hin & _).
  - discriminate.
  - reflexivity.
  - discriminate.
  - exists x, s'. split; [exact E|exact Hin].
Defined.

(** ** More on the classifiers *)

Section Urgency.

Lemma or_string_empty (x : string) : Js.or_string (Some x) "" = x.
Proof. destruct x; reflexivity. Qed.

Lemma lower_unit_idempotent (c : ascii) : Js.lower_unit (Js.lower_unit c) = Js.lower_unit c.
Proof. destruct c as [[] [] [] [] [] [] [] []]; reflexivity. Qed.

Lemma toLowerCase_idempotent (s : string) :
  Js.toLowerCase (Js.toLowerCase s) = Js.toLowerCase s.
Proof.
  induction s as [|c s IH]; [reflexivity|].
  cbn [Js.toLowerCase]. now rewrite lower_unit_idempotent, IH.
Qed.

End Urgency.

(** X8.  The urgency acts on the severity through two substrings only.
    An urgency that contains "critical" (any case) makes every
    description a DRAGON; one that contains neither "critical" nor
    "moderate" (such as "low" or "high") changes nothing; one that
    contains "moderate" only turns a GOBLIN into an ORC. *)
Theorem urgency_effect (d u : string) :
  (Js.includes (Js.toLowerCase u) "critical" = true ->
   classifyBugSeverity d (Some u) = DRAGON) /\
  (Js.includes (Js.toLowerCase u) "critical" = false ->
   Js.includes (Js.toLowerCase u) "moderate" = false ->
   classifyBugSeverity d (Some u) = classifyBugSeverity d None) /\
  (Js.includes (Js.toLowerCase u) "critical" = false ->
   Js.includes (Js.toLowerCase u) "moderate" = true ->
   classifyBugSeverity d (Some u) =
     match classifyBugSeverity d None with
     | GOBLIN => ORC
     | other => other
     end).
Proof.
  unfold classifyBugSeverity, classifyBugSeverityWith. cbv zeta. cbn [option_map].
  rewrite or_string_empty.
  change (Js.or_string None "") with "".
  change (Js.includes "" "critical") with false.
  change (Js.includes "" "moderate") with false.
  split; [|split].
  - intros ->. rewrite orb_true_r. reflexivity.
  - intros -> ->. reflexivity.
  - intros -> ->. rewrite orb_true_r, !orb_false_r.
    repeat match goal with
           | |- context [if ?c then _ else _] => destruct c
           end; reflexivity.
Qed.

Lemma urgency_effect_witness :
  classifyBugSeverity "typo in a label" (Some "CRITICAL") = DRAGON /\
  classifyBugSeverity "the page is slow" (Some "high") =
    classifyBugSeverity "the page is slow" None /\
  classifyBugSeverity "typo in a label" (Some "moderate") = ORC.
Proof.
  split; [|split].
  - apply (proj1 (urgency_effect "typo in a label" "CRITICAL")). reflexivity.
  - apply (proj1 (proj2 (urgency_effect "the page is slow" "high"))); reflexivity.
  - apply (proj2 (proj2 (urgency_effect "typo in a label" "moderate"))); reflexivity.
Defined.

(** X10.  Both classifiers read the description, and the severity
    classifier the urgency, without regard to the case of ASCII letters:
    inputs with the same lowercase form are classified alike, and so is
    an input and its lowercase form. *)
Theorem classification_ignores_case :
  (forall d1 d2 u1 u2 t1 t2,
     Js.toLowerCase d1 = Js.toLowerCase d2 ->
     option_map Js.toLowerCase u1 = option_map Js.toLowerCase u2 ->
     classifyBugSeverity d1 u1 = classifyBugSeverity d2 u2 /\
     classifyQuestType d1 t1 = classifyQuestType d2 t2) /\
  (forall d u t,
     classifyBugSeverity (Js.toLowerCase d) (option_map Js.toLowerCase u) =
       classifyBugSeverity d u /\
     classifyQuestType (Js.toLowerCase d) t = classifyQuestType d t).
Proof.
  assert (Hsame : forall d1 d2 u1 u2 t1 t2,
             Js.toLowerCase d1 = Js.toLowerCase d2 ->
             option_map Js.toLowerCase u1 = option_map Js.toLowerCase u2 ->
             classifyBugSeverity d1 u1 = classifyBugSeverity d2 u2 /\
             classifyQuestType d1 t1 = classifyQuestType d2 t2).
  { intros d1 d2 u1 u2 t1 t2 Hd Hu.
    unfold classifyBugSeverity, classifyQuestType, classifyBugSeverityWith,
      classifyQuestTypeWith. cbv zeta. rewrite Hd, Hu.
    split; reflexivity. }
  split; [exact Hsame|].
  intros d u t. apply Hsame; [apply toLowerCase_idempotent|].
  destruct u as [u|]; [|reflexivity].
  cbn [option_map]. now rewrite toLowerCase_idempotent.
Qed.

Lemma classification_ignores_case_witness :
  classifyBugSeverity "The API Is SLOW" (Some "Moderate") =
    classifyBugSeverity "the api is slow" (Some "moderate") /\
  classifyQuestType "The API Is SLOW" None = classifyQuestType "the api is slow" None.
Proof.
  apply (proj1 classification_ignores_case); reflexivity.
Defined.

Section Categories.

Variable ld : string.







End Categories.




(** ** After a quest is closed *)

(** X11.  After [completeQuest], whether it found a quest to close or
    not, there is no current quest, and every further operation other
    than [start_quest] (findings, guidance, status, closing again)
    leaves the context exactly as it is: a quest is archived and
    rewarded once. *)
Theorem closed_quest_stays_closed (summary : option string) (ops : list Operation)
    (s : State) :
  forallb in_lifetime ops = true ->
  currentQuest (context_after (completeQuest summary) s) = None /\
  context_after (perform_all ops) (state_after (completeQuest summary) s) =
    context_after (completeQuest summary) s.
Proof.
  intros Hops.
  assert (Hnone : currentQuest (context_after (completeQuest summary) s) = None).
  { unfold context_after, state_after.
    destruct (currentQuest (this_context s)) as [q|] eqn:Hq.
    - destruct (completeQuest_run summary s q Hq) as (now & r & s' & E & C).
      rewrite E. cbn [snd]. now rewrite C.
    - now rewrite (completeQuest_idle summary s Hq). }
  split; [exact Hnone|].
  unfold context_after. now apply lifetime_run_closed.
Qed.

Lemma closed_quest_stays_closed_witness :
  context_after
    (perform_all [complete_quest (Some "again"); continue_quest "late" None;
                  seek_wisdom "test"; get_quest_status])
    (state_after (completeQuest None) (engine_in_phase BATTLE)) =
  context_after (completeQuest None) (engine_in_phase BATTLE).
Proof.
  apply (closed_quest_stays_closed None
           [complete_quest (Some "again"); continue_quest "late" None;
            seek_wisdom "test"; get_quest_status] (engine_in_phase BATTLE)).
  reflexivity.
Defined.

(** ** Guidance on a topic *)

(** X16.  When the help type names one of the three topics (approach or
    strategy, test or verify, investigate or explore), the message and
    the four questions of [seekWisdom] are the fixed ones of the first
    topic named, in that order of the topics: [strategicWisdom],
    [testingWisdom] or [investigationWisdom].  They are the same for
    every open quest, whatever its category, severity or phase. *)
Theorem seekWisdom_topics_ignore_quest (h : string) (s1 s2 : State) (q1 q2 : Quest) :
  currentQuest (this_context s1) = Some q1 ->
  currentQuest (this_context s2) = Some q2 ->
  Js.includes (Js.toLowerCase h) "approach" || Js.includes (Js.toLowerCase h) "strategy" ||
  Js.includes (Js.toLowerCase h) "test" || Js.includes (Js.toLowerCase h) "verify" ||
  Js.includes (Js.toLowerCase h) "investigate" || Js.includes (Js.toLowerCase h) "explore" =
    true ->
  exists r1 r2,
    result_of (seekWisdom h) s1 = Normal r1 /\
    result_of (seekWisdom h) s2 = Normal r2 /\
    message r1 = message r2 /\
    questions r1 = questions r2 /\
    List.length (questions r1) = 4%nat /\
    (message r1, questions r1) =
      (if Js.includes (Js.toLowerCase h) "approach" ||
          Js.includes (Js.toLowerCase h) "strategy"
       then strategicWisdom
       else if Js.includes (Js.toLowerCase h) "test" ||
               Js.includes (Js.toLowerCase h) "verify"
       then testingWisdom
       else investigationWisdom).
Proof.
  intros Hq1 Hq2 Htopic.
  unfold result_of, seekWisdom. cbv zeta.
  rewrite !(bind_run _ _ _ _ _ (read_context_run _)). rewrite Hq1, Hq2.
  unfold getEncouragement.
  destruct (getRandomResponse_run (MENTOR_RESPONSES.encouragements (bugSeverity q1)) s1)
    as (s1' & E1 & _).
  destruct (getRandomResponse_run (MENTOR_RESPONSES.encouragements (bugSeverity q2)) s2)
    as (s2' & E2 & _).
  revert Htopic.
  repeat match goal with
         | |- context [Js.includes (Js.toLowerCase h) ?k] =>
             destruct (Js.includes (Js.toLowerCase h) k)
         end;
    cbn [orb]; intros Htopic; try discriminate Htopic;
    rewrite (bind_run _ _ _ _ _ E1), (bind_run _ _ _ _ _ E2);
    eexists _, _; (split; [reflexivity|]); (split; [reflexivity|]);
    repeat split; reflexivity.
Qed.

Lemma seekWisdom_topics_ignore_quest_witness :
  exists r1 r2,
    result_of (seekWisdom "How do I VERIFY the fix?") (engine_in_phase PREPARATION) =
      Normal r1 /\
    result_of (seekWisdom "How do I VERIFY the fix?") (engine_in_phase BATTLE) = Normal r2 /\
    questions r1 = questions r2 /\
    (message r1, questions r1) = testingWisdom.
Proof.
  destruct (seekWisdom_topics_ignore_quest "How do I VERIFY the fix?"
              (engine_in_phase PREPARATION) (engine_in_phase BATTLE)
              (sample_quest PREPARATION) (sample_quest BATTLE) eq_refl eq_refl eq_refl)
    as (r1 & r2 & E1 & E2 & _ & Hquestions & _ & Htopic).
  exists r1, r2. split; [exact E1|]. split; [exact E2|]. split; [exact Hquestions|].
  exact Htopic.
Defined.

(** ** The bestiary's completion *)

(** X12.  The completion of a bug type proposes exactly the bug types
    that start with the lowercased input, in the order goblin, orc,
    troll, dragon, hydra: all five for the empty input, at most one for
    any other (no two bug types share a first letter), and the same for
    an input and its lowercase form. *)
Theorem complete_bugType_spec (value : string) :
  (forall t,
     In t (complete_bugType value) <->
     In t ["goblin"; "orc"; "troll"; "dragon"; "hydra"] /\
     prefix (Js.toLowerCase value) t = true) /\
  complete_bugType "" = ["goblin"; "orc"; "troll"; "dragon"; "hydra"] /\
  (value <> "" -> (List.length (complete_bugType value) <= 1)%nat) /\
  complete_bugType (Js.toLowerCase value) = complete_bugType value.
Proof.
  split; [intros t; unfold complete_bugType; cbv zeta; apply filter_In|].
  split; [reflexivity|]. split.
  - intros Hvalue. destruct value as [|c v]; [contradiction|].
    unfold complete_bugType. cbv zeta. cbn [Js.toLowerCase filter prefix].
    repeat match goal with
           | |- context [ascii_dec ?a ?b] => destruct (ascii_dec a b) as [?|?]
           end;
      try congruence;
      repeat match goal with
             | |- context [if ?c then _ else _] => destruct c
             end;
      cbn [List.length]; lia.
  - unfold complete_bugType. cbv zeta. now rewrite toLowerCase_idempotent.
Qed.

Lemma complete_bugType_spec_witness :
  "Dr"%string <> ""%string /\ (List.length (complete_bugType "Dr") <= 1)%nat.
Proof.
  split; [discriminate|].
  apply (proj1 (proj2 (proj2 (complete_bugType_spec "Dr")))). discriminate.
Defined.

(** ** The quest log *)

Section QuestLogRuns.

Variable Number_toString : Z -> string.
Variable floor_times : Q -> Z -> Z.

Lemma Math_random_run (s : State) :
  Math_random s =
    (Normal (nth 0 (entropy s) 0%Q),
     {| this_context := this_context s; clock := clock s; entropy := skipn 1 (entropy s) |}).
Proof. unfold Math_random. destruct s as [c k [|r e]]; reflexivity. Qed.

Lemma nth_after_skipn {A} (m n : nat) (l : list A) (d : A) :
  nth n (skipn m l) d = nth (m + n) l d.
Proof.
  revert l. induction m as [|m IH]; intros l; [reflexivity|].
  destruct l as [|x l]; [now destruct n|]. cbn [skipn Nat.add nth]. apply IH.
Qed.

Lemma questLogLoop_run (k : nat) (i : Z) (h : string) (s : State) :
  questLogLoop Number_toString floor_times k i h s =
    (Normal
       (fold_left append
          (map (fun j =>
                  questLogEntry Number_toString floor_times (i + Z.of_nat j)
                    (nth (3 * j) (entropy s) 0%Q)
                    (nth (3 * j + 1) (entropy s) 0%Q)
                    (nth (3 * j + 2) (entropy s) 0%Q))
               (seq 0 k)) h),
     {| this_context := this_context s; clock := clock s;
        entropy := skipn (3 * k) (entropy s) |}).
Proof.
  revert i h s. induction k as [|k IH]; intros i h s.
  - destruct s; reflexivity.
  - cbn [questLogLoop].
    rewrite (bind_run _ _ _ _ _ (Math_random_run s)).
    rewrite (bind_run _ _ _ _ _ (Math_random_run _)).
    rewrite (bind_run _ _ _ _ _ (Math_random_run _)).
    rewrite IH. cbn [this_context clock entropy].
    rewrite !skipn_skipn. cbn [seq map fold_left].
    rewrite <- seq_shift, map_map.
    f_equal; [f_equal|f_equal; f_equal; lia].
    f_equal.
    + apply map_ext. intros j. rewrite !nth_after_skipn.
      f_equal; [lia|f_equal; lia..].
    + rewrite Z.add_0_r, (nth_after_skipn 1 0), !(nth_after_skipn 2 0 (entropy s)).
      reflexivity.
Qed.

End QuestLogRuns.

(** X13.  Whatever the text of a printed number and the rounding of the
    products are, [generateQuestHistory] lists [min (2 * heroLevel, 10)]
    quests, none when the level is zero or less and ten from level 5 on:
    its text is the header followed by the entries in order, the entry
    of index [j] built from the draws [3j], [3j + 1] and [3j + 2]; these
    draws are the only thing it uses up. *)
Theorem quest_log_entries (Number_toString : Z -> string) (floor_times : Q -> Z -> Z)
    (heroLevel : Z) (s : State) :
  exists n,
    generateQuestHistory Number_toString floor_times heroLevel s =
      (Normal
         (fold_left append
            (map (fun j =>
                    questLogEntry Number_toString floor_times (Z.of_nat j)
                      (nth (3 * j) (entropy s) 0%Q)
                      (nth (3 * j + 1) (entropy s) 0%Q)
                      (nth (3 * j + 2) (entropy s) 0%Q))
                 (seq 0 n)) (questLogHeader Number_toString heroLevel)),
       {| this_context := this_context s; clock := clock s;
          entropy := skipn (3 * n) (entropy s) |}) /\
    Z.of_nat n = Z.max 0 (Z.min (2 * heroLevel) 10) /\
    (n <= 10)%nat.
Proof.
  exists (Z.to_nat (Z.min (heroLevel * 2) 10)).
  split; [apply questLogLoop_run|]. lia.
Qed.

(** ** Queries and titles *)

(** X14.  Status and guidance only read: any run of [get_quest_status]
    and [seek_wisdom] operations, with or without an open quest,
    completes normally and leaves the context (current quest, history,
    experience, level) exactly as it was. *)
Theorem queries_change_nothing (ops : list Operation) (s : State) :
  forallb is_query ops = true ->
  result_of (perform_all ops) s = Normal tt /\
  context_after (perform_all ops) s = this_context s.
Proof.
  unfold result_of, context_after, state_after.
  revert s. induction ops as [|op ops IH]; intros s Hops; [now split|].
  cbn [forallb] in Hops. apply andb_prop in Hops. destruct Hops as [Hop Hops].
  cbn [perform_all]. rewrite (bind_run _ _ _ _ _ (perform_run op s)).
  destruct (IH (match op with
                | start_quest d t u => state_after (startQuest d t u) s
                | continue_quest f g => state_after (continueQuest f g) s
                | get_quest_status => state_after getQuestStatus s
                | seek_wisdom h => state_after (seekWisdom h) s
                | complete_quest summary => state_after (completeQuest summary) s
                end) Hops) as [Hresult Hcontext].
  split; [exact Hresult|]. rewrite Hcontext.
  destruct op as [d t u|f g| |h|summary]; try discriminate Hop.
  - apply keeps_context_after, getQuestStatus_keeps.
  - apply keeps_context_after, seekWisdom_keeps.
Qed.

Lemma queries_change_nothing_witness :
  context_after
    (perform_all [get_quest_status; seek_wisdom "explore"; get_quest_status])
    (engine_in_phase INVESTIGATION) =
  this_context (engine_in_phase INVESTIGATION).
Proof.
  apply (queries_change_nothing
           [get_quest_status; seek_wisdom "explore"; get_quest_status]
           (engine_in_phase INVESTIGATION)).
  reflexivity.
Defined.

(** X15.  The title of a quest tells its severity and its category: two
    pairs with the same title are the same pair. *)
Theorem generateQuestTitle_injective (s1 s2 : BugSeverity) (t1 t2 : QuestType) :
  generateQuestTitle s1 t1 = generateQuestTitle s2 t2 -> s1 = s2 /\ t1 = t2.
Proof.
  destruct s1, s2, t1, t2; intros Htitle; (split; reflexivity) || discriminate Htitle.
Qed.

Lemma generateQuestTitle_injective_witness :
  generateQuestTitle TROLL DATA_QUEST = "The Troll's Challenge in the Data Dungeon"%string /\
  TROLL = TROLL /\ DATA_QUEST = DATA_QUEST.
Proof.
  split; [reflexivity|].
  apply (generateQuestTitle_injective TROLL TROLL DATA_QUEST DATA_QUEST). reflexivity.
Defined.
